(** * hook-javascript: the authenticated request pipeline

    A shallow embedding of [src/client.js] (request construction and payload
    encoding) and of the [Auth] class (session state kept in [localStorage]),
    with the properties of the specification stated over it.

    JavaScript values are an inductive type; objects are association lists in
    insertion order (the order [for ... in] and [JSON.stringify] walk them);
    [localStorage] and the header object are finite maps from strings to
    strings; exceptions are an explicit result type; the mutable state
    ([this.currentUser], the store, the emitted events and the calls that
    left the process) is threaded through a small state-and-exception monad.

    Modelling limits, fixed once and for all:
    - numbers are integers ([Z]); fractional and non-finite numbers do not
      occur, except the time value of an invalid [Date], which is [None];
    - strings are byte strings, read as UTF-8;
    - an object has own data properties only, walked in insertion order (no
      inherited or accessor property, no reordering of integer-like keys,
      no cycle);
    - the DOM classes ([HTMLInputElement], [HTMLCanvasElement], [Blob],
      [FormData]) exist, as in a browser; host objects carry no own
      enumerable property;
    - the builtins whose result depends on the host ([Date.parse],
      [Date.prototype.toString], [Date.prototype.toISOString], [JSON.parse])
      and the optional global [dataURLtoBlob] are the fields of [Host]. *)

From Stdlib Require Import Ascii.
From stdpp Require Import gmap strings list fin_maps pretty.

Set Warnings "-register-all".

Open Scope string_scope.
Open Scope Z_scope.

(** ** JavaScript values *)

(** A [Blob]; a [File] is a [Blob] that also has a [name]. *)
Record Blob := mkBlob {
  type : string;
  content : string;
  name : option string
}.

(** One entry of a [FormData]: [append(name, value)] with a string, or
    [append(name, blob, filename)]. *)
Inductive FormEntry :=
| FieldString (field : string) (value : string)
| FieldFile (field : string) (value : Blob) (filename : string).

Inductive value :=
| VUndefined
| VNull
| VBool (b : bool)
| VNum (n : Z)
| VStr (s : string)
| VDate (time : option Z)                       (* getTime(), None is NaN *)
| VArray (items : list value)
| VObject (fields : list (string * value))
| VInput (files : option (list Blob)) (val : string)   (* HTMLInputElement *)
| VCanvas (dataURL : string)                    (* HTMLCanvasElement, toDataURL() *)
| VBlob (b : Blob)
| VFormData (entries : list FormEntry).

(** The host: what the embedding takes from the JavaScript environment. *)
Class Host := {
  Date_parse : string -> option Z;
  Date_toString : option Z -> string;
  Date_toISOString : Z -> string;
  JSON_parse : string -> option value;
  dataURLtoBlob : option (string -> Blob);
  (* the empty text is not JSON *)
  JSON_parse_empty : JSON_parse "" = None
}.

(** The double quote and the backslash, as one-character strings. *)
Definition dq : string := String "034"%char "".
Definition bs : string := String "092"%char "".

(** [!x] is false: the falsy values are [undefined], [null], [false], [0]
    and the empty string. *)
Definition truthy (v : value) : bool :=
  match v with
  | VUndefined | VNull => false
  | VBool b => b
  | VNum n => negb (n =? 0)
  | VStr s => negb (String.eqb s "")
  | _ => true
  end.

Definition typeof (v : value) : string :=
  match v with
  | VUndefined => "undefined"
  | VBool _ => "boolean"
  | VNum _ => "number"
  | VStr _ => "string"
  | _ => "object"
  end.

Definition join (sep : string) (l : list string) : string :=
  String.concat sep l.

(** [String(v)], the coercion of [localStorage.setItem] and of [+] with a
    string. In [Array.prototype.join], [null] and [undefined] give the empty
    string. *)
Fixpoint ToString `{Host} (v : value) : string :=
  match v with
  | VUndefined => "undefined"
  | VNull => "null"
  | VBool true => "true"
  | VBool false => "false"
  | VNum n => pretty n
  | VStr s => s
  | VDate t => Date_toString t
  | VArray items =>
      join "," (map (fun x => match x with
                              | VUndefined | VNull => ""
                              | _ => ToString x
                              end) items)
  | VObject _ => "[object Object]"
  | VInput _ _ => "[object HTMLInputElement]"
  | VCanvas _ => "[object HTMLCanvasElement]"
  | VBlob b => match name b with
               | Some _ => "[object File]"
               | None => "[object Blob]"
               end
  | VFormData _ => "[object FormData]"
  end.

(** ** Objects as association lists *)

Fixpoint assoc (k : string) (fields : list (string * value)) : option value :=
  match fields with
  | [] => None
  | (k', v) :: rest => if String.eqb k k' then Some v else assoc k rest
  end.

(** [delete o[k]] *)
Definition remove_key (k : string) (fields : list (string * value))
  : list (string * value) :=
  List.filter (fun kv => negb (String.eqb k (fst kv))) fields.

(** Exceptions. *)
Inductive Error :=
| TypeError (msg : string)
| SyntaxError (msg : string)
| PlainError (msg : string).              (* new Error(msg) *)

Inductive Res (A : Type) :=
| Ok (a : A)
| Throw (e : Error).
Arguments Ok {A} a.
Arguments Throw {A} e.

(** [o.k] for the property names the source reads ([token], [expire_at],
    [password], [_id]): reading a property of [undefined] or [null] throws,
    a plain object gives the field or [undefined], every other value has no
    such property. *)
Definition get_prop (o : value) (k : string) : Res value :=
  match o with
  | VUndefined | VNull =>
      Throw (TypeError ("Cannot read properties of " +:+
                        (match o with VNull => "null" | _ => "undefined" end)))
  | VObject fields => Ok (default VUndefined (assoc k fields))
  | _ => Ok VUndefined
  end.

(** [delete o.k]: only a plain object loses something. *)
Definition delete_prop (o : value) (k : string) : value :=
  match o with
  | VObject fields => VObject (remove_key k fields)
  | _ => o
  end.

Fixpoint index_from (i : Z) (items : list value) : list (string * value) :=
  match items with
  | [] => []
  | x :: rest => (pretty i, x) :: index_from (i + 1) rest
  end.

Fixpoint chars_from (i : Z) (s : string) : list (string * value) :=
  match s with
  | EmptyString => []
  | String c rest => (pretty i, VStr (String c "")) :: chars_from (i + 1) rest
  end.

(** The pairs [for (field in data)] visits, with [data[field]]: the fields of
    a plain object, the indices of an array or of a string. *)
Definition enumerate (data : value) : list (string * value) :=
  match data with
  | VObject fields => fields
  | VArray items => index_from 0 items
  | VStr s => chars_from 0 s
  | _ => []
  end.

(** ** Builtins with a fixed meaning *)

Definition hex_digit (alphabet : string) (n : nat) : string :=
  match String.get n alphabet with
  | Some c => String c ""
  | None => ""
  end.

Definition hex2 (alphabet : string) (c : ascii) : string :=
  let n := nat_of_ascii c in
  hex_digit alphabet (n / 16)%nat +:+ hex_digit alphabet (n mod 16)%nat.

(** One character of [QuoteJSONString]. *)
Definition json_escape (c : ascii) : string :=
  let n := nat_of_ascii c in
  if (n =? 8)%nat then bs +:+ "b"
  else if (n =? 9)%nat then bs +:+ "t"
  else if (n =? 10)%nat then bs +:+ "n"
  else if (n =? 12)%nat then bs +:+ "f"
  else if (n =? 13)%nat then bs +:+ "r"
  else if (n =? 34)%nat then bs +:+ dq
  else if (n =? 92)%nat then bs +:+ bs
  else if (n <? 32)%nat then bs +:+ "u00" +:+ hex2 "0123456789abcdef" c
  else String c "".

Fixpoint flat_map_string (f : ascii -> string) (s : string) : string :=
  match s with
  | EmptyString => ""
  | String c rest => f c +:+ flat_map_string f rest
  end.

Definition QuoteJSONString (s : string) : string :=
  dq +:+ flat_map_string json_escape s +:+ dq.

(** [Math.round(a / b)] for integers [a] and [b > 0]: the nearest integer,
    a tie going up. *)
Definition Math_round_div (a b : Z) : Z := (2 * a + b) / (2 * b).

(** [JSON.stringify(v, replacer)] at one property, after ECMAScript's
    SerializeJSONProperty; [None] is [undefined], the property is left out.
    With [replacer = false] no replacer function is passed and a [Date] goes
    through [toJSON]. With [replacer = true] the replacer is the one of
    [getPayload]:
    [function(key, value) {
       if (this[key] instanceof Date) { return Math.round(this[key].getTime() / 1000); }
       else { return value; } }]
    where [this[key]] is the value before [toJSON]; every other value comes
    back unchanged, so that the walk continues in it. *)
Fixpoint SerializeJSONProperty `{Host} (replacer : bool) (v : value)
  : option string :=
  match v with
  | VUndefined => None
  | VNull => Some "null"
  | VBool true => Some "true"
  | VBool false => Some "false"
  | VNum n => Some (pretty n)
  | VStr s => Some (QuoteJSONString s)
  | VDate time =>
      match time with
      | None => Some "null"
      | Some ms =>
          if replacer then Some (pretty (Math_round_div ms 1000))
          else Some (QuoteJSONString (Date_toISOString ms))
      end
  | VArray items =>
      Some ("[" +:+
            join "," (map (fun x => default "null" (SerializeJSONProperty replacer x))
                          items) +:+
            "]")
  | VObject fields =>
      Some ("{" +:+
            join ","
              ((fix members (l : list (string * value)) : list string :=
                  match l with
                  | [] => []
                  | (k, x) :: rest =>
                      match SerializeJSONProperty replacer x with
                      | Some str => (QuoteJSONString k +:+ ":" +:+ str) :: members rest
                      | None => members rest
                      end
                  end) fields) +:+
            "}")
  | VInput _ _ | VCanvas _ | VBlob _ | VFormData _ => Some "{}"
  end.

Definition JSON_stringify `{Host} (replacer : bool) (v : value) : value :=
  match SerializeJSONProperty replacer v with
  | Some s => VStr s
  | None => VUndefined
  end.

Definition unreserved (c : ascii) : bool :=
  let n := nat_of_ascii c in
  ((48 <=? n) && (n <=? 57))%nat || ((65 <=? n) && (n <=? 90))%nat
  || ((97 <=? n) && (n <=? 122))%nat
  || match String.index 0 (String c "") "-_.!~*'()" with
     | Some _ => true
     | None => false
     end.

(** [encodeURIComponent(s)] on the UTF-8 bytes of [s]. *)
Definition encodeURIComponent (s : string) : string :=
  flat_map_string
    (fun c => if unreserved c then String c ""
              else "%" +:+ hex2 "0123456789ABCDEF" c) s.

(** [v == s] for a string [s] that is not the text of a number (the source
    compares with the two characters of an empty object literal): a string
    compares by content, an object by its [String(v)], nothing else is
    equal. *)
Definition loose_eq_text `{Host} (v : value) (s : string) : bool :=
  match v with
  | VStr s' => String.eqb s' s
  | VUndefined | VNull | VBool _ | VNum _ => false
  | _ => String.eqb (ToString v) s
  end.

(** [new Date(v)], as its time value. *)
Definition new_Date `{Host} (v : value) : option Z :=
  match v with
  | VStr s => Date_parse s
  | VNull => Some 0
  | VUndefined => None
  | VNum n => Some n
  | VBool b => Some (if b then 1 else 0)
  | VDate time => time
  | _ => Date_parse (ToString v)
  end.

(** [a < b] on time values; a comparison with [NaN] is false. *)
Definition time_lt (a b : option Z) : bool :=
  match a, b with
  | Some x, Some y => x <? y
  | _, _ => false
  end.

(** ** Exceptions and state *)

Class Monad (T : Type -> Type) := {
  ret : forall {A}, A -> T A;
  bind : forall {A B}, T A -> (A -> T B) -> T B
}.

Notation "x <- m ;; k" := (bind m (fun x => k))
  (at level 100, m at next level, right associativity).

#[export] Instance Res_monad : Monad Res := {|
  ret := @Ok;
  bind := fun A B m f =>
    match m with
    | Ok a => f a
    | Throw e => Throw e
    end
|}.

(** The configuration of a [Client]; [method_override] is the truth value of
    [this.options.method_override]. *)
Record Client := mkClient {
  endpoint : string;
  app_id : string;
  key : string;
  method_override : bool
}.

(** The second argument of [fetch]; [body] is [None] when [initObj] has no
    [body] property. *)
Record RequestInit := mkInit {
  method : string;
  headers : gmap string string;
  body : option value
}.

(** What leaves the process: a [fetch], or a call of the collection module,
    which is not part of these sources. *)
Inductive Call :=
| Fetch (url : string) (init : RequestInit)
| CollectionUpdate (collection : string) (id : value) (data : value).

(** The mutable state: [this.currentUser] of the [Auth] instance, the
    store, the events given to [trigger], the calls made so far (oldest
    first). *)
Record State := mkState {
  currentUser : value;
  localStorage : gmap string string;
  triggered : list (string * value);
  calls : list Call
}.

Definition M (A : Type) : Type := State -> Res A * State.

#[export] Instance M_monad : Monad M := {|
  ret := fun A a st => (Ok a, st);
  bind := fun A B m f st =>
    match m st with
    | (Ok a, st') => f a st'
    | (Throw e, st') => (Throw e, st')
    end
|}.

Definition lift {A} (r : Res A) : M A := fun st => (r, st).
Definition throw {A} (e : Error) : M A := fun st => (Throw e, st).

(** A promise, as the reactions registered on it with [then]; [fulfil] runs
    them in order when the promise resolves with [v]. An exception in one
    reaction rejects the promise derived from it and stops nothing else. *)
Record Promise := mkPromise {
  reactions : list (value -> M unit)
}.

Definition then_ (p : Promise) (f : value -> M unit) : Promise :=
  {| reactions := reactions p ++ [f] |}.

Fixpoint run_reactions (fs : list (value -> M unit)) (v : value) (st : State)
  : State :=
  match fs with
  | [] => st
  | f :: rest => run_reactions rest v (snd (f v st))
  end.

Definition fulfil (p : Promise) (v : value) (st : State) : State :=
  run_reactions (reactions p) v st.

(** The store, after the Web Storage interface: values are strings,
    [getItem] of a missing key is [null], [setItem] stores [String(v)]. *)
Definition getItem (k : string) : M value := fun st =>
  (Ok (match localStorage st !! k with
       | Some s => VStr s
       | None => VNull
       end), st).

Definition with_currentUser (v : value) (st : State) : State :=
  {| currentUser := v;
     localStorage := localStorage st;
     triggered := triggered st;
     calls := calls st |}.

Definition with_localStorage (m : gmap string string) (st : State) : State :=
  {| currentUser := currentUser st;
     localStorage := m;
     triggered := triggered st;
     calls := calls st |}.

Definition add_triggered (event : string) (payload : value) (st : State)
  : State :=
  {| currentUser := currentUser st;
     localStorage := localStorage st;
     triggered := triggered st ++ [(event, payload)];
     calls := calls st |}.

Definition add_call (call : Call) (st : State) : State :=
  {| currentUser := currentUser st;
     localStorage := localStorage st;
     triggered := triggered st;
     calls := calls st ++ [call] |}.

Definition setItem `{Host} (k : string) (v : value) : M unit := fun st =>
  (Ok tt, with_localStorage (<[k := ToString v]> (localStorage st)) st).

Definition removeItem (k : string) : M unit := fun st =>
  (Ok tt, with_localStorage (delete k (localStorage st)) st).

(** [this.trigger(event, payload)]: the event is recorded; what the
    listeners do is outside this model. *)
Definition trigger (event : string) (payload : value) : M unit := fun st =>
  (Ok tt, add_triggered event payload st).

Definition get_currentUser : M value := fun st => (Ok (currentUser st), st).

Definition set_currentUser (v : value) : M unit := fun st =>
  (Ok tt, with_currentUser v st).

(** [fetch(url, initObj).then(function(res) { return res.json(); })]: the
    exchange is recorded, the promise has no reaction yet. *)
Definition fetch (url : string) (init : RequestInit) : M Promise := fun st =>
  (Ok {| reactions := [] |}, add_call (Fetch url init) st).

(** [client.collection(name).update(id, data)], of the collection module:
    the call is recorded, the promise has no reaction yet. *)
Definition collection_update (collection : string) (id data : value)
  : M Promise := fun st =>
  (Ok {| reactions := [] |}, add_call (CollectionUpdate collection id data) st).

(** ** client.js: payload encoding *)

(** The text a greedy run of dots matches at the start of [s]: up to the
    first line terminator. *)
Fixpoint upto_line_end (s : string) : string :=
  match s with
  | EmptyString => ""
  | String c rest =>
      if ((nat_of_ascii c =? 10) || (nat_of_ascii c =? 13))%nat then ""
      else String c (upto_line_end rest)
  end.

(** [s.match(re)[1]] for the pattern of the source, a slash followed by a
    capturing group of any characters: the capture after the first slash;
    without a slash [match] gives [null] and the index throws. *)
Fixpoint match_after_slash (s : string) : Res string :=
  match s with
  | EmptyString => Throw (TypeError "Cannot read properties of null")
  | String c rest =>
      if (nat_of_ascii c =? 47)%nat then Ok (upto_line_end rest)
      else match_after_slash rest
  end.

(** [filename || "file"] *)
Definition filename_or_file (filename : option string) : string :=
  match filename with
  | Some f => if String.eqb f "" then "file" else f
  | None => "file"
  end.

(** The chain of [else if] of the loop body, for a field that is neither
    [undefined] nor [null]: the new [value], [filename] and [worth]. *)
Definition resolve_field `{Host} (v : value) (worth : bool)
  : Res (value * option string * bool) :=
  match v with
  | VBool _ | VNum _ | VStr _ => Ok (VStr (ToString v), None, worth)
  | VInput (Some (file :: _)) _ => Ok (VBlob file, name file, true)
  | VInput _ val => Ok (VStr val, None, worth)
  | VCanvas url =>
      match dataURLtoBlob with
      | None =>
          Throw (PlainError "Please add this dependency in your project: https://github.com/blueimp/JavaScript-Canvas-to-Blob")
      | Some convert => Ok (VBlob (convert url), Some "canvas.png", true)
      end
  | VBlob b =>
      ext <- match_after_slash (type b);;
      Ok (v, Some ("blob." +:+ ext), true)
  | _ => Ok (v, None, worth)
  end.

(** The end of the loop body: an array is not appended, a string is
    appended as it is, anything else with a file name; [append] accepts a
    file name only with a [Blob] and its exception is caught. *)
Definition append_field (formdata : list FormEntry) (field : string)
    (v : value) (filename : option string) : list FormEntry :=
  match v with
  | VArray _ => formdata
  | VStr s => formdata ++ [FieldString field s]
  | VBlob b => formdata ++ [FieldFile field b (filename_or_file filename)]
  | _ => formdata
  end.

(** [for (field in data) { ... }] on the pairs still to visit. *)
Fixpoint payload_fields `{Host} (todo : list (string * value))
    (formdata : list FormEntry) (worth : bool)
  : Res (list FormEntry * bool) :=
  match todo with
  | [] => Ok (formdata, worth)
  | (field, v) :: rest =>
      match v with
      | VUndefined | VNull => payload_fields rest formdata worth
      | _ =>
          r <- resolve_field v worth;;
          let '(v', filename, worth') := (r : value * option string * bool) in
          payload_fields rest (append_field formdata field v' filename) worth'
      end
  end.

Definition getPayload `{Host} (method : string) (data : value) : Res value :=
  let payload := VNull in
  if truthy data then
    payload <-
      match data with
      | VFormData _ => Ok data
      | _ =>
          if negb (String.eqb method "GET") then
            r <- payload_fields (enumerate data) [] false;;
            let '(formdata, worth) := (r : list FormEntry * bool) in
            Ok (if worth then VFormData formdata else payload)
          else Ok payload
      end;;
    let payload := if truthy payload then payload
                   else JSON_stringify true data in
    if loose_eq_text payload "{}" then Ok VNull
    else if String.eqb method "GET" && String.eqb (typeof payload) "string"
         then Ok (VStr (encodeURIComponent (ToString payload)))
         else Ok payload
  else Ok payload.

(** ** The Auth class *)

Definition AUTH_DATA_KEY : string := "hook-auth-data".
Definition AUTH_TOKEN_KEY : string := "hook-auth-token".
Definition AUTH_TOKEN_EXPIRATION : string := "hook-auth-token-expiration".

(** [this.client.app_id + '-' + purpose] *)
Definition store_key (c : Client) (purpose : string) : string :=
  app_id c +:+ "-" +:+ purpose.

Definition getToken (c : Client) : M value :=
  getItem (store_key c AUTH_TOKEN_KEY).

(** ** client.js: headers and dispatch *)

Definition getHeaders `{Host} (c : Client) : M (gmap string string) :=
  let request_headers : gmap string string :=
    <["X-App-Key" := key c]> (<["X-App-Id" := app_id c]> ∅) in
  auth_token <- getToken c;;
  if truthy auth_token
  then ret (<["X-Auth-Token" := ToString auth_token]> request_headers)
  else ret request_headers.

Definition request `{Host} (c : Client) (segments method : string)
    (data : value) : M Promise :=
  request_headers <- getHeaders c;;
  let request_headers := <["Content-Type" := "text/json"]> request_headers in
  let override := negb (String.eqb method "GET")
                  && negb (String.eqb method "POST")
                  && method_override c in
  let request_headers :=
    if override then <["X-HTTP-Method-Override" := method]> request_headers
    else request_headers in
  let method := if override then "POST" else method in
  let url := endpoint c +:+ segments in
  if String.eqb method "GET" then
    payload <- lift (getPayload method data);;
    fetch (url +:+ "?" +:+ ToString payload)
          {| method := method; headers := request_headers; body := None |}
  else
    payload <- lift (getPayload method data);;
    fetch url
          {| method := method; headers := request_headers;
             body := Some payload |}.

Definition post `{Host} (c : Client) (segments : string) (data : value)
  : M Promise :=
  let data := match data with
              | VUndefined => VObject []
              | _ => data
              end in
  request c segments "POST" data.

Definition get `{Host} (c : Client) (segments : string) (data : value)
  : M Promise :=
  request c segments "GET" data.

Definition put `{Host} (c : Client) (segments : string) (data : value)
  : M Promise :=
  request c segments "PUT" data.

Definition remove `{Host} (c : Client) (segments : string) (data : value)
  : M Promise :=
  request c segments "DELETE" data.

(** ** The Auth class, continued *)

(** [JSON.parse(text)]; a text that is not JSON is a [SyntaxError]. *)
Definition parse_json `{Host} (text : string) : M value :=
  match JSON_parse text with
  | Some v => ret v
  | None => throw (SyntaxError "Unexpected token in JSON")
  end.

(** [new Auth(client)] at the wall-clock time [now], in milliseconds. *)
Definition Auth_constructor `{Host} (c : Client) (now : Z) : M unit :=
  _ <- set_currentUser VNull;;
  expiration <- getItem (store_key c AUTH_TOKEN_EXPIRATION);;
  let tokenExpiration := new_Date expiration in
  currentUser <- getItem (store_key c AUTH_DATA_KEY);;
  if truthy currentUser && time_lt (Some now) tokenExpiration then
    doc <- parse_json (ToString currentUser);;
    set_currentUser doc
  else ret tt.

Definition setCurrentUser `{Host} (c : Client) (data : value) : M unit :=
  if negb (truthy data) then
    previous <- get_currentUser;;
    _ <- trigger "logout" previous;;
    _ <- set_currentUser data;;
    _ <- removeItem (store_key c AUTH_TOKEN_KEY);;
    removeItem (store_key c AUTH_DATA_KEY)
  else
    _ <- setItem (store_key c AUTH_DATA_KEY) (JSON_stringify false data);;
    _ <- set_currentUser data;;
    trigger "login" data.

Definition _registerToken `{Host} (c : Client) (data : value) : M unit :=
  token <- lift (get_prop data "token");;
  if truthy token then
    t <- lift (get_prop token "token");;
    _ <- setItem (store_key c AUTH_TOKEN_KEY) t;;
    e <- lift (get_prop token "expire_at");;
    _ <- setItem (store_key c AUTH_TOKEN_EXPIRATION) e;;
    let data := delete_prop data "token" in
    setCurrentUser c data
  else ret tt.

Definition register `{Host} (c : Client) (data : value) : M Promise :=
  let data := match data with
              | VUndefined => VObject []
              | _ => data
              end in
  promise <- post c "auth/email" data;;
  ret (then_ promise (fun data => _registerToken c data)).

Definition login `{Host} (c : Client) (data : value) : M Promise :=
  let data := match data with
              | VUndefined => VObject []
              | _ => data
              end in
  promise <- post c "auth/email/login" data;;
  ret (then_ promise (fun data => _registerToken c data)).

Definition update `{Host} (c : Client) (data : value) : M Promise :=
  user <- get_currentUser;;
  if negb (truthy user) then throw (PlainError "not logged in.")
  else
    id <- lift (get_prop user "_id");;
    promise <- collection_update "auth" id data;;
    ret (then_ promise (fun data => setCurrentUser c data)).

Definition forgotPassword `{Host} (c : Client) (data : value) : M Promise :=
  let data := match data with
              | VUndefined => VObject []
              | _ => data
              end in
  post c "auth/email/forgotPassword" data.

Definition resetPassword `{Host} (c : Client) (data : value) : M Promise :=
  token <- lift (get_prop data "token");;
  if negb (String.eqb (typeof token) "string") then
    throw (PlainError "forgot password token required. Remember to use 'auth.forgotPassword' before 'auth.resetPassword'.")
  else
    password <- lift (get_prop data "password");;
    if negb (String.eqb (typeof password) "string") then
      throw (PlainError "new password required.")
    else post c "auth/email/resetPassword" data.

Definition logout `{Host} (c : Client) : M unit := setCurrentUser c VNull.

(** [this.currentUser !== null] *)
Definition isLogged : M bool := fun st =>
  (Ok (match currentUser st with
       | VNull => false
       | _ => true
       end), st).

(** ** Notions used by the properties *)

(** The field values that set [worth]: an input with an attached file, a
    canvas, a blob. *)
Definition file_bearing (v : value) : bool :=
  match v with
  | VInput (Some (_ :: _)) _ | VCanvas _ | VBlob _ => true
  | _ => false
  end.

(** The primitive values. *)
Definition scalar (v : value) : bool :=
  match v with
  | VUndefined | VNull | VBool _ | VNum _ | VStr _ => true
  | _ => false
  end.

(** The field values on which the loop body does not throw: a canvas needs
    [dataURLtoBlob], a blob a slash in its media type. *)
Definition encodable `{Host} (v : value) : bool :=
  match v with
  | VCanvas _ =>
      match dataURLtoBlob with
      | Some _ => true
      | None => false
      end
  | VBlob b =>
      match match_after_slash (type b) with
      | Ok _ => true
      | Throw _ => false
      end
  | _ => true
  end.

(** [typeof(r) === "string"] for the outcome of a property read. *)
Definition is_string (r : Res value) : bool :=
  match r with
  | Ok (VStr _) => true
  | _ => false
  end.

Definition is_FormData (v : value) : bool :=
  match v with
  | VFormData _ => true
  | _ => false
  end.

(** The members [JSON.stringify] writes for the fields of an object. *)
Fixpoint json_members `{Host} (replacer : bool) (l : list (string * value))
  : list string :=
  match l with
  | [] => []
  | (k, x) :: rest =>
      match SerializeJSONProperty replacer x with
      | Some str => (QuoteJSONString k +:+ ":" +:+ str) :: json_members replacer rest
      | None => json_members replacer rest
      end
  end.

(** The verb and the headers [request] gives to [fetch]. *)
Definition overridden (c : Client) (method : string) : bool :=
  negb (String.eqb method "GET") && negb (String.eqb method "POST")
  && method_override c.

Definition sent_method (c : Client) (method : string) : string :=
  if overridden c method then "POST" else method.

Definition auth_headers (c : Client) (st : State) : gmap string string :=
  let base : gmap string string :=
    <["X-App-Key" := key c]> (<["X-App-Id" := app_id c]> ∅) in
  match localStorage st !! store_key c AUTH_TOKEN_KEY with
  | Some token =>
      if String.eqb token "" then base else <["X-Auth-Token" := token]> base
  | None => base
  end.

Definition sent_headers (c : Client) (method : string) (st : State)
  : gmap string string :=
  let with_type := <["Content-Type" := "text/json"]> (auth_headers c st) in
  if overridden c method then <["X-HTTP-Method-Override" := method]> with_type
  else with_type.

(** Unix time, in the words of the specification: the whole seconds elapsed
    since the epoch, for a time value in milliseconds. *)
Definition unix_epoch_seconds (ms : Z) : Z := ms / 1000.

(** *** Concrete inputs *)

(** A host that knows one date and one JSON text and has no
    [dataURLtoBlob]. *)
Definition sample_host : Host := {|
  Date_parse := fun s =>
    if String.eqb s "1970-01-01T00:00:01.000Z" then Some 1000 else None;
  Date_toString := fun _ => "Thu Jan 01 1970";
  Date_toISOString := fun _ => "1970-01-01T00:00:01.000Z";
  JSON_parse := fun s =>
    if String.eqb s "{}" then Some (VObject []) else None;
  dataURLtoBlob := None;
  JSON_parse_empty := eq_refl
|}.

Definition sample_client : Client :=
  {| endpoint := "http://hook.dev/"; app_id := "1"; key := "test";
     method_override := true |}.

Definition plain_client : Client :=
  {| endpoint := "http://hook.dev/"; app_id := "1"; key := "test";
     method_override := false |}.

Definition fresh_state : State :=
  {| currentUser := VNull; localStorage := ∅; triggered := []; calls := [] |}.

Definition png_blob : Blob :=
  {| type := "image/png"; content := "PNG"; name := None |}.

(** A store with a session that expired at 1000 ms. *)
Definition stale_state : State :=
  {| currentUser := VNull;
     localStorage :=
       <["1-hook-auth-token-expiration" := "1970-01-01T00:00:01.000Z"]>
         (<["1-hook-auth-token" := "abc"]>
            (<["1-hook-auth-data" := "{}"]> ∅));
     triggered := [];
     calls := [] |}.

Definition logged_state : State :=
  {| currentUser := VObject [("_id", VNum 7)];
     localStorage := ∅; triggered := []; calls := [] |}.

(** ** client.js: construction and URLs *)

(** [a || b] *)
Definition or_else (a b : value) : value := if truthy a then a else b.

(** [s.lastIndexOf(c)] for a one-character [c], scanning from position [i]:
    the position of the last occurrence, [found] when there is none. *)
Fixpoint lastIndexOf_from (c : ascii) (s : string) (i found : Z) : Z :=
  match s with
  | EmptyString => found
  | String c' rest =>
      lastIndexOf_from c rest (i + 1) (if Ascii.eqb c' c then i else found)
  end.

Definition lastIndexOf (c : ascii) (s : string) : Z :=
  lastIndexOf_from c s 0 (-1).

(** [items.lastIndexOf('/')] on an array: the comparison is [===], only the
    one-character string matches. *)
Fixpoint array_lastIndexOf_slash (items : list value) (i found : Z) : Z :=
  match items with
  | [] => found
  | x :: rest =>
      array_lastIndexOf_slash rest (i + 1)
        (match x with
         | VStr s => if String.eqb s "/" then i else found
         | _ => found
         end)
  end.

(** The statement
    [if (this.endpoint.lastIndexOf('/') != this.endpoint.length - 1) {
       this.endpoint += "/"; }]
    with the endpoint read afterwards as a string, the only way the source
    uses it. A string and an array have [lastIndexOf] and [length]; on
    [undefined] and [null] the property read throws, on every other value
    [lastIndexOf] is not a function. *)
Definition with_last_slash `{Host} (endpoint : value) : Res string :=
  match endpoint with
  | VStr s =>
      Ok (if lastIndexOf "/" s =? Z.of_nat (String.length s) - 1
          then s else s +:+ "/")
  | VArray items =>
      Ok (if array_lastIndexOf_slash items 0 (-1)
             =? Z.of_nat (List.length items) - 1
          then ToString endpoint else ToString endpoint +:+ "/")
  | VUndefined | VNull =>
      Throw (TypeError "Cannot read properties of undefined")
  | _ => Throw (TypeError "this.endpoint.lastIndexOf is not a function")
  end.

(** [new Client(options)], for the fields the request pipeline reads.
    [app_id] and [key] are kept as the strings every use coerces them to.
    [method_override] is the truth value of [this.options.method_override],
    which the source reads at each request whose verb is neither GET nor
    POST; with [options.options] null that read throws, no [Client] stands
    for such an instance, and the [TypeError] of the read is given here.
    The collaborators built next ([KeyValues], [Auth], [System], plugins)
    are not part of the result; [Auth_constructor] is the one of them in
    these sources. *)
Definition Client_constructor `{Host} (options : value) : Res Client :=
  let options := if truthy options then options else VObject [] in
  e <- get_prop options "endpoint";;
  u <- get_prop options "url";;
  a <- get_prop options "app_id";;
  a' <- get_prop options "appId";;
  k <- get_prop options "key";;
  o <- get_prop options "options";;
  let o := match o with
           | VUndefined => VObject []
           | _ => o
           end in
  endpoint <- with_last_slash (or_else e u);;
  m <- get_prop o "method_override";;
  Ok {| endpoint := endpoint;
        app_id := ToString (or_else (or_else a a') (VStr ""));
        key := ToString (or_else k (VStr ""));
        method_override := truthy m |}.

Definition getCredentialsParams `{Host} (c : Client) : M string :=
  let params := "?X-App-Id=" +:+ app_id c +:+ "&X-App-Key=" +:+ key c in
  auth_token <- getToken c;;
  if truthy auth_token
  then ret (params +:+ "&X-Auth-Token=" +:+ ToString auth_token)
  else ret params.

(** [serialize(obj, prefix)]; an absent prefix and the empty prefix are the
    same to the test [prefix ? ... : p], and are the empty string here. Every
    value whose [typeof] is [object] is walked in turn, [null] and the host
    objects included, which have nothing to walk. *)
Fixpoint serialize `{Host} (obj : value) (prefix : string) : string :=
  let k p := if String.eqb prefix "" then p
             else prefix +:+ "[" +:+ p +:+ "]" in
  let pair p v := encodeURIComponent (k p) +:+ "="
                  +:+ encodeURIComponent (ToString v) in
  match obj with
  | VObject fields =>
      join "&"
        ((fix str (l : list (string * value)) : list string :=
            match l with
            | [] => []
            | (p, v) :: rest =>
                (if String.eqb (typeof v) "object" then serialize v (k p)
                 else pair p v) :: str rest
            end) fields)
  | VArray items =>
      join "&"
        ((fix str (i : Z) (l : list value) : list string :=
            match l with
            | [] => []
            | v :: rest =>
                (if String.eqb (typeof v) "object"
                 then serialize v (k (pretty i))
                 else pair (pretty i) v) :: str (i + 1) rest
            end) 0 items)
  | VStr s => join "&" (map (fun pv => pair pv.1 pv.2) (chars_from 0 s))
  | _ => ""
  end.

Definition url `{Host} (c : Client) (route : string) (params : value)
  : M string :=
  let serializedParams :=
    if truthy params then "&" +:+ serialize params "" else "" in
  credentials <- getCredentialsParams c;;
  ret (endpoint c +:+ route +:+ credentials +:+ serializedParams).

(** ** Further notions *)

Fixpoint string_forallb (f : ascii -> bool) (s : string) : bool :=
  match s with
  | EmptyString => true
  | String c rest => f c && string_forallb f rest
  end.

(** The characters of an encoded URI component: unreserved ones and the
    percent sign of an escape. *)
Definition component_char (c : ascii) : bool :=
  unreserved c || Ascii.eqb c "%".

(** The characters of a serialized query: those of a component and the two
    separators. *)
Definition query_char (c : ascii) : bool :=
  component_char c || Ascii.eqb c "=" || Ascii.eqb c "&".

(** The last character of [s] is a slash. *)
Fixpoint ends_with_slash (s : string) : bool :=
  match s with
  | EmptyString => false
  | String c rest =>
      match rest with
      | EmptyString => Ascii.eqb c "/"
      | String _ _ => ends_with_slash rest
      end
  end.

Definition entry_field (e : FormEntry) : string :=
  match e with
  | FieldString field _ => field
  | FieldFile field _ _ => field
  end.

(** The field values that leave an entry in the multipart form. *)
Definition appended (v : value) : bool :=
  match v with
  | VBool _ | VNum _ | VStr _ | VInput _ _ | VCanvas _ | VBlob _ => true
  | _ => false
  end.

(** A string without slash. *)
Definition no_slash (s : string) : bool :=
  string_forallb (fun c => negb (nat_of_ascii c =? 47)%nat) s.

(** A string without line terminator. *)
Definition one_line (s : string) : bool :=
  string_forallb
    (fun c => negb ((nat_of_ascii c =? 10) || (nat_of_ascii c =? 13))%nat) s.

(** A second host, with other date functions and a JSON parser that
    accepts nothing. *)
Definition other_host : Host := {|
  Date_parse := fun _ => None;
  Date_toString := fun _ => "01/01/1970";
  Date_toISOString := fun _ => "1970";
  JSON_parse := fun _ => None;
  dataURLtoBlob := None;
  JSON_parse_empty := eq_refl
|}.

(** A login response with an identifier and a token. *)
Definition login_body : value :=
  VObject [("_id", VNum 7);
           ("token", VObject [("token", VStr "abc");
                              ("expire_at", VStr "1970-01-01T00:00:01.000Z")])].

(** ** Lemmas on strings and store keys *)

Lemma append_inj_l (p a b : string) : p +:+ a = p +:+ b -> a = b.
Proof.
  induction p as [|ch p IH]; simpl; intros Heq; [exact Heq|].
  injection Heq as Heq. auto.
Qed.

Lemma store_key_inj (c : Client) (a b : string) :
  store_key c a = store_key c b -> a = b.
Proof.
  unfold store_key. intros Heq.
  apply append_inj_l in Heq. simpl in Heq. injection Heq as Heq. exact Heq.
Qed.

Lemma token_key_not_data c :
  store_key c AUTH_TOKEN_KEY <> store_key c AUTH_DATA_KEY.
Proof. intros Heq. apply store_key_inj in Heq. discriminate Heq. Qed.

Lemma expiration_key_not_data c :
  store_key c AUTH_TOKEN_EXPIRATION <> store_key c AUTH_DATA_KEY.
Proof. intros Heq. apply store_key_inj in Heq. discriminate Heq. Qed.

Lemma token_key_not_expiration c :
  store_key c AUTH_TOKEN_KEY <> store_key c AUTH_TOKEN_EXPIRATION.
Proof. intros Heq. apply store_key_inj in Heq. discriminate Heq. Qed.

Section Properties.
Context `{Host}.

(** ** The payload loop *)

Lemma SerializeJSONProperty_object replacer fields :
  SerializeJSONProperty replacer (VObject fields)
  = Some ("{" +:+ join "," (json_members replacer fields) +:+ "}").
Proof.
  simpl.
  match goal with
  | |- context [join "," (?f fields)] =>
      assert (Hm : forall l, f l = json_members replacer l)
  end.
  { induction l as [|[k x] rest IH]; simpl; [reflexivity|].
    destruct (SerializeJSONProperty replacer x); [f_equal|]; exact IH. }
  rewrite Hm. reflexivity.
Qed.

Lemma resolve_field_worth v worth v' filename worth' :
  resolve_field v worth = Ok (v', filename, worth') ->
  worth' = worth || file_bearing v.
Proof.
  destruct v as [| |b|n|s|t|items|fields|files val|url|b|entries];
    simpl; intros Hr; try (injection Hr as _ _ <-; rewrite ?orb_false_r; reflexivity).
  - rewrite orb_comm. destruct files as [[|file files']|]; simpl in *;
      injection Hr as _ _ <-; reflexivity.
  - destruct dataURLtoBlob; [|discriminate Hr].
    injection Hr as _ _ <-. rewrite orb_true_r. reflexivity.
  - destruct (match_after_slash (type b)); [|discriminate Hr].
    simpl in Hr. injection Hr as _ _ <-. rewrite orb_true_r. reflexivity.
Qed.

Lemma resolve_field_encodable v worth :
  encodable v = true -> exists r, resolve_field v worth = Ok r.
Proof.
  destruct v as [| |b|n|s|t|items|fields|files val|url|b|entries];
    simpl; intros He; eauto.
  - destruct files as [[|file files']|]; eauto.
  - destruct dataURLtoBlob; [eauto|discriminate He].
  - destruct (match_after_slash (type b)); [simpl; eauto|discriminate He].
Qed.

Lemma payload_fields_cons field v rest formdata worth :
  payload_fields ((field, v) :: rest) formdata worth
  = match v with
    | VUndefined | VNull => payload_fields rest formdata worth
    | _ =>
        match resolve_field v worth with
        | Ok (v', filename, worth') =>
            payload_fields rest (append_field formdata field v' filename) worth'
        | Throw e => Throw e
        end
    end.
Proof.
  destruct v; try reflexivity;
    simpl; destruct (resolve_field _ worth) as [[[v' filename] w]|e];
    reflexivity.
Qed.

Lemma payload_fields_worth todo : forall formdata worth formdata' worth',
  payload_fields todo formdata worth = Ok (formdata', worth') ->
  worth' = worth || existsb (fun kv => file_bearing kv.2) todo.
Proof.
  induction todo as [|[field v] rest IH]; intros formdata worth formdata' worth' Hp.
  - simpl in Hp. injection Hp as _ <-. simpl. rewrite orb_false_r. reflexivity.
  - rewrite payload_fields_cons in Hp. simpl existsb.
    destruct (resolve_field v worth) as [[[v' filename] w]|e] eqn:Hr.
    + apply resolve_field_worth in Hr.
      destruct v; apply IH in Hp; subst; destruct worth; reflexivity.
    + destruct v; try discriminate Hp; apply IH in Hp; subst; reflexivity.
Qed.

Lemma payload_fields_encodable todo : forall formdata worth,
  Forall (fun kv => encodable kv.2 = true) todo ->
  exists r, payload_fields todo formdata worth = Ok r.
Proof.
  induction todo as [|[field v] rest IH]; intros formdata worth Hall.
  - simpl. eauto.
  - inversion Hall as [|kv l Hv Hrest]; subst. simpl in Hv.
    rewrite payload_fields_cons.
    destruct (resolve_field_encodable v worth Hv) as [[[v' filename] w] Hr].
    rewrite Hr. destruct v; apply IH; exact Hrest.
Qed.

Lemma scalar_not_file_bearing v : scalar v = true -> file_bearing v = false.
Proof. destruct v; simpl; intros Hs; try reflexivity; discriminate Hs. Qed.

(** ** [getPayload] and [request], case by case *)

Lemma getPayload_falsy method data :
  truthy data = false -> getPayload method data = Ok VNull.
Proof. unfold getPayload. intros ->. reflexivity. Qed.

Lemma getPayload_object method fields :
  method <> "GET" ->
  getPayload method (VObject fields)
  = match payload_fields fields [] false with
    | Throw e => Throw e
    | Ok (formdata, true) => Ok (VFormData formdata)
    | Ok (_, false) =>
        let text := "{" +:+ join "," (json_members true fields) +:+ "}" in
        if String.eqb text "{}" then Ok VNull else Ok (VStr text)
    end.
Proof.
  intros Hm. apply String.eqb_neq in Hm.
  unfold getPayload. cbn [truthy enumerate]. rewrite Hm. cbn [negb].
  destruct (payload_fields fields [] false) as [[formdata [|]]|e];
    cbn [bind Res_monad]; [reflexivity| |reflexivity].
  cbn [truthy]. unfold JSON_stringify.
  rewrite SerializeJSONProperty_object. cbn [loose_eq_text andb].
  destruct (String.eqb _ "{}"); reflexivity.
Qed.

Lemma getPayload_GET data :
  truthy data = true -> is_FormData data = false ->
  getPayload "GET" data
  = match SerializeJSONProperty true data with
    | Some text =>
        if String.eqb text "{}" then Ok VNull
        else Ok (VStr (encodeURIComponent text))
    | None => Ok VUndefined
    end.
Proof.
  intros Ht Hf. unfold getPayload. rewrite Ht.
  assert (Hp : match data with
               | VFormData _ => Ok data
               | _ => if negb (String.eqb "GET" "GET")
                      then (r <- payload_fields (enumerate data) [] false;;
                            let '(formdata, worth) := (r : list FormEntry * bool) in
                            Ok (if worth then VFormData formdata else VNull))
                      else Ok VNull
               end = Ok VNull).
  { destruct data; try reflexivity. discriminate Hf. }
  rewrite Hp. cbn [bind Res_monad truthy]. unfold JSON_stringify.
  destruct (SerializeJSONProperty true data) as [text|]; cbn; [|reflexivity].
  destruct (String.eqb text "{}"); reflexivity.
Qed.

Lemma getHeaders_eq c st : getHeaders c st = (Ok (auth_headers c st), st).
Proof.
  unfold getHeaders, auth_headers, getToken, getItem. cbn.
  destruct (localStorage st !! store_key c AUTH_TOKEN_KEY) as [token|]; cbn;
    [|reflexivity].
  destruct (String.eqb token ""); reflexivity.
Qed.

Lemma request_eq c segments method data st :
  request c segments method data st
  = match getPayload (sent_method c method) data with
    | Throw e => (Throw e, st)
    | Ok payload =>
        (Ok {| reactions := [] |},
         add_call
           (if String.eqb (sent_method c method) "GET"
            then Fetch ((endpoint c +:+ segments) +:+ "?" +:+ ToString payload)
                       {| method := sent_method c method;
                          headers := sent_headers c method st;
                          body := None |}
            else Fetch (endpoint c +:+ segments)
                       {| method := sent_method c method;
                          headers := sent_headers c method st;
                          body := Some payload |})
           st)
    end.
Proof.
  unfold request. cbn [bind M_monad]. rewrite getHeaders_eq.
  fold (overridden c method). fold (sent_method c method).
  unfold sent_headers.
  destruct (String.eqb (sent_method c method) "GET");
    cbn [bind M_monad]; unfold lift;
    destruct (getPayload (sent_method c method) data); reflexivity.
Qed.

Lemma sent_method_not_GET c method :
  method <> "GET" -> sent_method c method <> "GET".
Proof.
  unfold sent_method. destruct (overridden c method); [discriminate|auto].
Qed.

Lemma auth_headers_no_override c st :
  auth_headers c st !! "X-HTTP-Method-Override" = None.
Proof.
  unfold auth_headers.
  destruct (localStorage st !! store_key c AUTH_TOKEN_KEY) as [token|];
    [destruct (String.eqb token "")|];
    repeat (rewrite lookup_insert_ne by discriminate); apply lookup_empty.
Qed.

Lemma sent_headers_content_type c method st :
  sent_headers c method st !! "Content-Type" = Some "text/json".
Proof.
  unfold sent_headers. destruct (overridden c method);
    [rewrite lookup_insert_ne by discriminate|]; apply lookup_insert_eq.
Qed.

Lemma sent_headers_override c method st :
  sent_headers c method st !! "X-HTTP-Method-Override"
  = if overridden c method then Some method else None.
Proof.
  unfold sent_headers. destruct (overridden c method).
  - apply lookup_insert_eq.
  - rewrite lookup_insert_ne by discriminate. apply auth_headers_no_override.
Qed.

Lemma request_dispatch c segments method data st payload :
  getPayload (sent_method c method) data = Ok payload ->
  exists url body,
    request c segments method data st
    = (Ok {| reactions := [] |},
       add_call (Fetch url {| method := sent_method c method;
                              headers := sent_headers c method st;
                              body := body |}) st)
    /\ (sent_method c method <> "GET" ->
        url = endpoint c +:+ segments /\ body = Some payload)
    /\ (sent_method c method = "GET" ->
        url = (endpoint c +:+ segments) +:+ "?" +:+ ToString payload
        /\ body = None).
Proof.
  intros Hp. rewrite request_eq, Hp.
  destruct (String.eqb (sent_method c method) "GET") eqn:Hm.
  - apply String.eqb_eq in Hm. eexists _, _. split; [reflexivity|].
    split; [intros Hne; contradiction|auto].
  - apply String.eqb_neq in Hm. eexists _, _. split; [reflexivity|].
    split; [auto|intros Heq; contradiction].
Qed.

Lemma Exists_file_bearing (fields : list (string * value)) :
  Exists (fun kv => file_bearing kv.2 = true) fields ->
  existsb (fun kv => file_bearing kv.2) fields = true.
Proof.
  induction 1 as [kv rest Hkv|kv rest _ IH]; simpl.
  - rewrite Hkv. reflexivity.
  - rewrite IH. apply orb_true_r.
Qed.

Lemma Forall_scalar_no_file (fields : list (string * value)) :
  Forall (fun kv => scalar kv.2 = true) fields ->
  existsb (fun kv => file_bearing kv.2) fields = false.
Proof.
  induction 1 as [|kv rest Hkv _ IH]; simpl; [reflexivity|].
  rewrite (scalar_not_file_bearing _ Hkv), IH. reflexivity.
Qed.

Lemma not_file_bearing_encodable v :
  file_bearing v = false -> encodable v = true.
Proof. destruct v; simpl; intros Hf; try reflexivity; discriminate Hf. Qed.

Lemma no_file_encodable (fields : list (string * value)) :
  existsb (fun kv => file_bearing kv.2) fields = false ->
  Forall (fun kv => encodable kv.2 = true) fields.
Proof.
  induction fields as [|kv rest IH]; simpl; intros He; constructor.
  - apply not_file_bearing_encodable. destruct (file_bearing kv.2); [discriminate He|reflexivity].
  - apply IH. destruct (file_bearing kv.2); [discriminate He|exact He].
Qed.

(** Without a file-bearing field the loop ends with [worth] false. *)
Lemma payload_fields_no_file (fields : list (string * value)) :
  existsb (fun kv => file_bearing kv.2) fields = false ->
  exists formdata, payload_fields fields [] false = Ok (formdata, false).
Proof.
  intros He.
  destruct (payload_fields_encodable fields [] false (no_file_encodable _ He))
    as [[formdata worth] Hp].
  exists formdata. rewrite Hp.
  apply payload_fields_worth in Hp. rewrite He in Hp. subst worth. reflexivity.
Qed.

Lemma json_members_In replacer (fields : list (string * value)) k x str :
  In (k, x) fields ->
  SerializeJSONProperty replacer x = Some str ->
  In (QuoteJSONString k +:+ ":" +:+ str) (json_members replacer fields).
Proof.
  intros Hin Hs. induction fields as [|[k' x'] rest IH]; [contradiction|].
  simpl. destruct Hin as [Heq | Hin].
  - injection Heq as -> ->. rewrite Hs. left. reflexivity.
  - destruct (SerializeJSONProperty replacer x'); [right|]; apply IH; exact Hin.
Qed.

Lemma json_members_shape replacer (fields : list (string * value)) :
  json_members replacer fields = []
  \/ exists k str rest,
       json_members replacer fields = (QuoteJSONString k +:+ ":" +:+ str) :: rest.
Proof.
  induction fields as [|[k x] rest IH]; simpl; [left; reflexivity|].
  destruct (SerializeJSONProperty replacer x) as [str|]; [|exact IH].
  right. eauto.
Qed.

(** An object with at least one member is not the empty-object text. *)
Lemma object_text_not_empty replacer (fields : list (string * value)) m :
  In m (json_members replacer fields) ->
  String.eqb ("{" +:+ join "," (json_members replacer fields) +:+ "}") "{}"
  = false.
Proof.
  intros Hin.
  destruct (json_members_shape replacer fields) as [Hnil | (k & str & rest & Hm)].
  - rewrite Hnil in Hin. contradiction.
  - rewrite Hm. destruct rest; reflexivity.
Qed.

Lemma Math_round_div_1000 ms :
  1000 * Math_round_div ms 1000 - 500 <= ms < 1000 * Math_round_div ms 1000 + 500.
Proof.
  unfold Math_round_div.
  pose proof (Z.div_mod (2 * ms + 1000) (2 * 1000) ltac:(lia)) as Hdm.
  pose proof (Z.mod_pos_bound (2 * ms + 1000) (2 * 1000) ltac:(lia)) as Hb.
  lia.
Qed.

Lemma Math_round_div_floor ms :
  Math_round_div ms 1000
  = if ms mod 1000 <? 500 then unix_epoch_seconds ms
    else unix_epoch_seconds ms + 1.
Proof.
  unfold unix_epoch_seconds.
  pose proof (Math_round_div_1000 ms) as Hr.
  pose proof (Z.div_mod ms 1000 ltac:(lia)) as Hdm.
  pose proof (Z.mod_pos_bound ms 1000 ltac:(lia)) as Hb.
  destruct (Z.ltb_spec (ms mod 1000) 500); lia.
Qed.


(** ** The session state *)

Lemma assoc_remove_key k (fields : list (string * value)) :
  assoc k (remove_key k fields) = None.
Proof.
  induction fields as [|[k' v] rest IH]; simpl; [reflexivity|].
  destruct (String.eqb k k') eqn:Hk; simpl; [exact IH|].
  rewrite Hk. exact IH.
Qed.

Lemma setCurrentUser_truthy c data st :
  truthy data = true ->
  setCurrentUser c data st
  = (Ok tt,
     add_triggered "login" data
       (with_currentUser data
          (with_localStorage
             (<[store_key c AUTH_DATA_KEY := ToString (JSON_stringify false data)]>
                (localStorage st)) st))).
Proof. unfold setCurrentUser. intros ->. reflexivity. Qed.

Lemma setCurrentUser_falsy c data st :
  truthy data = false ->
  setCurrentUser c data st
  = (Ok tt,
     with_localStorage
       (delete (store_key c AUTH_DATA_KEY)
          (delete (store_key c AUTH_TOKEN_KEY) (localStorage st)))
       (with_currentUser data
          (add_triggered "logout" (currentUser st) st))).
Proof. unfold setCurrentUser. intros ->. reflexivity. Qed.

(** The constructor reads the store and never writes it. *)
Lemma Auth_constructor_store c now st :
  localStorage (Auth_constructor c now st).2 = localStorage st
  /\ triggered (Auth_constructor c now st).2 = triggered st
  /\ calls (Auth_constructor c now st).2 = calls st.
Proof.
  unfold Auth_constructor, getItem, parse_json. cbn.
  match goal with
  | |- context [if ?b then _ else _] => destruct b; cbn; [|auto]
  end.
  match goal with
  | |- context [JSON_parse ?text] => destruct (JSON_parse text); cbn; auto
  end.
Qed.

Lemma Auth_constructor_expired c now st :
  time_lt (Some now)
    (new_Date (match localStorage st !! store_key c AUTH_TOKEN_EXPIRATION with
               | Some s => VStr s
               | None => VNull
               end)) = false ->
  Auth_constructor c now st = (Ok tt, with_currentUser VNull st).
Proof.
  intros Hlt. unfold Auth_constructor, getItem.
  cbn [bind M_monad set_currentUser with_currentUser localStorage].
  rewrite Hlt, andb_false_r. reflexivity.
Qed.

(** ** The properties of the specification *)

(** C1, amended. For a non-GET request whose data has a field resolving to
    binary or file content, every dispatch carries the multipart form as its
    body, and the dispatch takes place whenever no field makes the encoding
    throw; the header Content-Type: text/json is set on the request all the
    same, as on every request. For a data object with scalar fields only the
    request is dispatched and its body is not multipart. *)
Theorem C1_multipart_trigger c segments verb fields st :
  verb <> "GET" ->
  (Exists (fun kv => file_bearing kv.2 = true) fields ->
     (forall p st',
        request c segments verb (VObject fields) st = (Ok p, st') ->
        exists formdata,
          st' = add_call (Fetch (endpoint c +:+ segments)
                                {| method := sent_method c verb;
                                   headers := sent_headers c verb st;
                                   body := Some (VFormData formdata) |}) st)
     /\ (Forall (fun kv => encodable kv.2 = true) fields ->
         exists p st', request c segments verb (VObject fields) st = (Ok p, st')))
  /\ sent_headers c verb st !! "Content-Type" = Some "text/json"
  /\ (Forall (fun kv => scalar kv.2 = true) fields ->
      exists p payload,
        is_FormData payload = false
        /\ request c segments verb (VObject fields) st
           = (Ok p, add_call (Fetch (endpoint c +:+ segments)
                                    {| method := sent_method c verb;
                                       headers := sent_headers c verb st;
                                       body := Some payload |}) st)).
Proof.
  intros Hverb. pose proof (sent_method_not_GET c verb Hverb) as Hm.
  pose proof Hm as Hmb. apply String.eqb_neq in Hmb.
  split; [|split].
  - intros Hfile. apply Exists_file_bearing in Hfile. split.
    + intros p st' Hreq. rewrite request_eq, Hmb in Hreq.
      rewrite (getPayload_object _ _ Hm) in Hreq.
      destruct (payload_fields fields [] false) as [[formdata worth]|e] eqn:Hp;
        [|discriminate Hreq].
      apply payload_fields_worth in Hp. rewrite Hfile in Hp. subst worth.
      injection Hreq as _ <-. exists formdata. reflexivity.
    + intros Henc.
      destruct (payload_fields_encodable fields [] false Henc) as [[formdata worth] Hp].
      pose proof Hp as Hw. apply payload_fields_worth in Hw.
      rewrite Hfile in Hw. subst worth.
      rewrite request_eq, (getPayload_object _ _ Hm), Hp. eauto.
  - apply sent_headers_content_type.
  - intros Hscalar. apply Forall_scalar_no_file in Hscalar.
    destruct (payload_fields_no_file fields Hscalar) as [formdata Hp].
    rewrite request_eq, (getPayload_object _ _ Hm), Hp, Hmb. cbn zeta.
    destruct (String.eqb _ "{}"); eexists _, _; (split; [|reflexivity]);
      reflexivity.
Qed.

(** C2. For a response body with a token sub-object holding the token [T]
    and the expiration [E], the token-registration step makes [getToken()]
    return [T], stores [E] (as the store keeps it, a string) under the
    expiration key, and keeps as current user, in memory and serialized in
    the store, the body without its token field. A body without a token
    field changes nothing. *)
Theorem C2_token_round_trip c st :
  (forall fields tok T E,
      assoc "token" fields = Some (VObject tok) ->
      assoc "token" tok = Some (VStr T) ->
      assoc "expire_at" tok = Some E ->
      let user := VObject (remove_key "token" fields) in
      exists st',
        _registerToken c (VObject fields) st = (Ok tt, st')
        /\ getToken c st' = (Ok (VStr T), st')
        /\ localStorage st' !! store_key c AUTH_TOKEN_EXPIRATION
           = Some (ToString E)
        /\ localStorage st' !! store_key c AUTH_DATA_KEY
           = Some ("{" +:+ join "," (json_members false (remove_key "token" fields)) +:+ "}")
        /\ SerializeJSONProperty false user
           = Some ("{" +:+ join "," (json_members false (remove_key "token" fields)) +:+ "}")
        /\ currentUser st' = user
        /\ get_prop user "token" = Ok VUndefined)
  /\ (forall data,
        get_prop data "token" = Ok VUndefined ->
        _registerToken c data st = (Ok tt, st)).
Proof.
  split.
  - intros fields tok T E Htok HT HE user.
    unfold _registerToken, lift.
    cbn [bind M_monad get_prop]. rewrite Htok.
    cbn [from_option id truthy get_prop]. rewrite HT, HE.
    cbn [from_option id delete_prop setItem ToString].
    rewrite setCurrentUser_truthy by reflexivity.
    unfold JSON_stringify. rewrite SerializeJSONProperty_object.
    eexists. split; [reflexivity|].
    unfold getToken, getItem.
    cbn [localStorage add_triggered with_currentUser with_localStorage ToString].
    rewrite lookup_insert_ne by (apply not_eq_sym, token_key_not_data).
    rewrite lookup_insert_ne by (apply not_eq_sym, token_key_not_expiration).
    rewrite lookup_insert_eq.
    split; [reflexivity|].
    rewrite lookup_insert_ne by (apply not_eq_sym, expiration_key_not_data).
    rewrite !lookup_insert_eq.
    repeat split.
    + apply SerializeJSONProperty_object.
    + unfold user. cbn. rewrite assoc_remove_key. reflexivity.
  - intros data Hno. unfold _registerToken, lift. cbn. rewrite Hno. reflexivity.
Qed.

(** C3. With a persisted user document and a persisted expiration that
    parses as the time [E], constructing Auth at the time [now] leaves
    [currentUser] null when [now >= E] and sets it to the parsed document
    when [now < E]. *)
Theorem C3_expiration_boundary c now st doc d e E :
  localStorage st !! store_key c AUTH_DATA_KEY = Some doc ->
  JSON_parse doc = Some d ->
  localStorage st !! store_key c AUTH_TOKEN_EXPIRATION = Some e ->
  Date_parse e = Some E ->
  (E <= now ->
     Auth_constructor c now st = (Ok tt, with_currentUser VNull st)
     /\ isLogged (Auth_constructor c now st).2
        = (Ok false, (Auth_constructor c now st).2))
  /\ (now < E ->
      Auth_constructor c now st = (Ok tt, with_currentUser d st)).
Proof.
  intros Hdoc Hparse Hexp Hdate.
  assert (Hne : String.eqb doc "" = false).
  { apply String.eqb_neq. intros ->. rewrite JSON_parse_empty in Hparse.
    discriminate Hparse. }
  split.
  - intros Hle.
    assert (Hc : Auth_constructor c now st = (Ok tt, with_currentUser VNull st)).
    { apply Auth_constructor_expired. rewrite Hexp. cbn. rewrite Hdate. cbn.
      apply Z.ltb_ge. exact Hle. }
    rewrite Hc. split; reflexivity.
  - intros Hlt. unfold Auth_constructor, getItem, parse_json. cbn.
    rewrite Hexp, Hdoc. cbn. rewrite Hdate, Hne. cbn.
    apply Z.ltb_lt in Hlt. rewrite Hlt. cbn. rewrite Hparse. reflexivity.
Qed.

(** C4. After [setCurrentUser(d)], [isLogged()] is true for a truthy [d]
    and false for [null]; for a falsy [d] other than [null] ([undefined],
    [false], [0], the empty string) the logout branch runs and [isLogged()]
    is true all the same, since it compares with [null] only. *)
Theorem C4_setCurrentUser_isLogged c st :
  (forall d, truthy d = true ->
     (isLogged (setCurrentUser c d st).2).1 = Ok true)
  /\ (isLogged (setCurrentUser c VNull st).2).1 = Ok false
  /\ (forall d, truthy d = false -> d <> VNull ->
        (isLogged (setCurrentUser c d st).2).1 = Ok true
        /\ triggered (setCurrentUser c d st).2
           = (triggered st ++ [("logout", currentUser st)])%list
        /\ (update c (VObject []) (setCurrentUser c d st).2).1
           = Throw (PlainError "not logged in.")).
Proof.
  split; [|split].
  - intros d Hd. rewrite setCurrentUser_truthy by exact Hd.
    destruct d; try reflexivity; discriminate Hd.
  - reflexivity.
  - intros d Hd Hnull. rewrite setCurrentUser_falsy by exact Hd.
    unfold update, isLogged.
    cbn [bind M_monad get_currentUser currentUser with_localStorage
         with_currentUser add_triggered triggered fst snd].
    rewrite Hd. destruct d; try contradiction; repeat split; reflexivity.
Qed.

(** C5, amended. When construction finds an expired session (a persisted
    user document, and [now] at or after the persisted expiration), the
    in-memory reference is null and nothing else happens: the store keeps the
    token and the user document, and no logout event is emitted. *)
Theorem C5_expired_session_kept c now st doc e E :
  localStorage st !! store_key c AUTH_DATA_KEY = Some doc ->
  localStorage st !! store_key c AUTH_TOKEN_EXPIRATION = Some e ->
  Date_parse e = Some E ->
  E <= now ->
  Auth_constructor c now st = (Ok tt, with_currentUser VNull st)
  /\ localStorage (Auth_constructor c now st).2 = localStorage st
  /\ (getToken c (Auth_constructor c now st).2).1 = (getToken c st).1
  /\ localStorage (Auth_constructor c now st).2 !! store_key c AUTH_DATA_KEY
     = Some doc
  /\ triggered (Auth_constructor c now st).2 = triggered st.
Proof.
  intros Hdoc Hexp Hdate Hle.
  assert (Hc : Auth_constructor c now st = (Ok tt, with_currentUser VNull st)).
  { apply Auth_constructor_expired. rewrite Hexp.
    cbn [new_Date]. rewrite Hdate. cbn [time_lt]. apply Z.ltb_ge. exact Hle. }
  rewrite Hc. cbn [snd with_currentUser localStorage triggered].
  repeat split; try reflexivity. exact Hdoc.
Qed.

(** C6. A request whose verb is neither GET nor POST is dispatched, when
    method override is enabled, as POST with the header
    X-HTTP-Method-Override carrying the original verb; with method override
    disabled the verb is dispatched unchanged; GET and POST are never
    rewritten. The dispatch takes place whenever the payload encodes. *)
Theorem C6_method_override c segments verb data st payload :
  getPayload (sent_method c verb) data = Ok payload ->
  exists p url init,
    request c segments verb data st = (Ok p, add_call (Fetch url init) st)
    /\ (verb <> "GET" -> verb <> "POST" -> method_override c = true ->
        method init = "POST"
        /\ headers init !! "X-HTTP-Method-Override" = Some verb)
    /\ (method_override c = false ->
        method init = verb
        /\ headers init !! "X-HTTP-Method-Override" = None)
    /\ (verb = "GET" \/ verb = "POST" ->
        method init = verb
        /\ headers init !! "X-HTTP-Method-Override" = None).
Proof.
  intros Hp.
  destruct (request_dispatch c segments verb data st payload Hp)
    as (url & body & Hreq & _).
  eexists _, url, _. split; [exact Hreq|]. cbn [method headers].
  rewrite sent_headers_override. unfold sent_method, overridden.
  split; [|split].
  - intros Hg Hpost ->. apply String.eqb_neq in Hg, Hpost.
    rewrite Hg, Hpost. split; reflexivity.
  - intros ->. rewrite andb_false_r. split; reflexivity.
  - intros [-> | ->]; split; reflexivity.
Qed.

(** C7, amended. [resetPassword(data)] throws before any call is made
    whenever [data.token] or [data.password] is missing or not a string.
    When both are strings it makes the one call
    [post('auth/email/resetPassword', data)]: exactly one request to the
    reset endpoint when the payload of [data] encodes, and the exception of
    the encoding, again without any call, when it does not. *)
Theorem C7_resetPassword c data st :
  (is_string (get_prop data "token") = false
   \/ is_string (get_prop data "password") = false ->
   exists e, resetPassword c data st = (Throw e, st))
  /\ (is_string (get_prop data "token") = true ->
      is_string (get_prop data "password") = true ->
      resetPassword c data st = post c "auth/email/resetPassword" data st
      /\ (forall payload,
            getPayload "POST" data = Ok payload ->
            resetPassword c data st
            = (Ok {| reactions := [] |},
               add_call (Fetch (endpoint c +:+ "auth/email/resetPassword")
                               {| method := "POST";
                                  headers := sent_headers c "POST" st;
                                  body := Some payload |}) st))
      /\ (forall e,
            getPayload "POST" data = Throw e ->
            resetPassword c data st = (Throw e, st))
      /\ (Forall (fun kv => encodable kv.2 = true) (enumerate data) ->
          exists payload, getPayload "POST" data = Ok payload)).
Proof.
  split.
  - intros Hbad. unfold resetPassword, lift. cbn [bind M_monad].
    destruct (get_prop data "token") as [token|e] eqn:Htoken; [|eauto].
    destruct (String.eqb (typeof token) "string") eqn:Htype;
      cbn [negb]; [|unfold throw; eauto].
    destruct (get_prop data "password") as [password|e] eqn:Hpass; [|eauto].
    destruct (String.eqb (typeof password) "string") eqn:Hptype;
      cbn [negb]; [|unfold throw; eauto].
    destruct token; try discriminate Htype.
    destruct password; try discriminate Hptype.
    destruct Hbad as [Hbad | Hbad]; discriminate Hbad.
  - intros Htok Hpass.
    destruct data as [| |b|n|s|t|items|fields|files val|url|b|entries];
      try discriminate Htok.
    assert (Hreset : resetPassword c (VObject fields) st
                     = post c "auth/email/resetPassword" (VObject fields) st).
    { unfold resetPassword, lift. cbn [bind M_monad].
      destruct (get_prop (VObject fields) "token") as [[]|]; try discriminate Htok.
      destruct (get_prop (VObject fields) "password") as [[]|];
        try discriminate Hpass.
      reflexivity. }
    rewrite Hreset. unfold post. rewrite request_eq.
    change (sent_method c "POST") with "POST".
    split; [reflexivity|]. split; [|split].
    + intros payload ->. reflexivity.
    + intros e ->. reflexivity.
    + intros Henc. cbn [enumerate] in Henc.
      rewrite getPayload_object by discriminate.
      destruct (payload_fields_encodable fields [] false Henc) as [[formdata [|]] ->];
        [eauto|].
      cbv zeta. destruct (String.eqb _ "{}"); eauto.
Qed.

(** C8. [update(data)] throws the not-logged-in error and makes no call
    when no current user is set; with a current user it submits the update
    of the auth collection under that user's [_id], and the fulfilment of
    the returned promise with a document applies [setCurrentUser] to it. *)
Theorem C8_update c data st :
  (truthy (currentUser st) = false ->
   update c data st = (Throw (PlainError "not logged in."), st))
  /\ (truthy (currentUser st) = true ->
      exists id p,
        get_prop (currentUser st) "_id" = Ok id
        /\ update c data st
           = (Ok p, add_call (CollectionUpdate "auth" id data) st)
        /\ forall doc st1, fulfil p doc st1 = (setCurrentUser c doc st1).2).
Proof.
  split; intros Huser; unfold update; cbn [bind M_monad get_currentUser];
    rewrite Huser; cbn [negb]; [reflexivity|].
  unfold lift.
  destruct (get_prop (currentUser st) "_id") as [id|e] eqn:Hid.
  - eexists id, _. split; [reflexivity|]. split; [reflexivity|].
    intros doc st1. reflexivity.
  - destruct (currentUser st); try discriminate Huser; discriminate Hid.
Qed.

(** C9, amended. When a data object without a file-bearing field is
    serialized as JSON, a field holding a valid date is written as the
    decimal integer [Math.round(getTime() / 1000)], never as a string: the
    epoch time in seconds rounded to the nearest integer, which is the
    Unix-epoch seconds when the millisecond part is below 500 and one second
    more otherwise. For GET the text is then percent-encoded. *)
Theorem C9_date_fields verb (fields : list (string * value)) k ms :
  In (k, VDate (Some ms)) fields ->
  existsb (fun kv => file_bearing kv.2) fields = false ->
  let seconds := Math_round_div ms 1000 in
  let text := "{" +:+ join "," (json_members true fields) +:+ "}" in
  getPayload verb (VObject fields)
  = Ok (VStr (if String.eqb verb "GET" then encodeURIComponent text else text))
  /\ In (QuoteJSONString k +:+ ":" +:+ pretty seconds) (json_members true fields)
  /\ 1000 * seconds - 500 <= ms < 1000 * seconds + 500
  /\ seconds = (if ms mod 1000 <? 500 then unix_epoch_seconds ms
                else unix_epoch_seconds ms + 1).
Proof.
  intros Hin Hfile. cbv zeta.
  assert (Hmember : In (QuoteJSONString k +:+ ":" +:+ pretty (Math_round_div ms 1000))
                       (json_members true fields)).
  { apply (json_members_In true fields k (VDate (Some ms))); [exact Hin|].
    reflexivity. }
  pose proof (object_text_not_empty true fields _ Hmember) as Hne.
  split; [|split; [exact Hmember|split]].
  - destruct (String.eqb verb "GET") eqn:Hv.
    + apply String.eqb_eq in Hv. subst verb.
      rewrite getPayload_GET by reflexivity.
      rewrite SerializeJSONProperty_object, Hne. reflexivity.
    + apply String.eqb_neq in Hv. rewrite (getPayload_object _ _ Hv).
      destruct (payload_fields_no_file fields Hfile) as [formdata Hp].
      rewrite Hp. cbv zeta. rewrite Hne. reflexivity.
  - apply Math_round_div_1000.
  - apply Math_round_div_floor.
Qed.

(** C10. A GET request whose payload is normalized to null (data falsy, or
    data serializing to the empty-object text) is dispatched to the endpoint
    plus segments followed by the characters ?null. *)
Theorem C10_get_null_query c segments data st :
  truthy data = false
  \/ (is_FormData data = false /\ SerializeJSONProperty true data = Some "{}") ->
  getPayload "GET" data = Ok VNull
  /\ request c segments "GET" data st
     = (Ok {| reactions := [] |},
        add_call (Fetch ((endpoint c +:+ segments) +:+ "?null")
                        {| method := "GET";
                           headers := sent_headers c "GET" st;
                           body := None |}) st).
Proof.
  intros Hd.
  assert (Hp : getPayload "GET" data = Ok VNull).
  { destruct Hd as [Hf | [Hform Hjson]].
    - apply getPayload_falsy. exact Hf.
    - destruct (truthy data) eqn:Ht; [|apply getPayload_falsy; exact Ht].
      rewrite getPayload_GET by assumption. rewrite Hjson. reflexivity. }
  split; [exact Hp|].
  rewrite request_eq. change (sent_method c "GET") with "GET".
  rewrite Hp. reflexivity.
Qed.

End Properties.

(** ** The properties at concrete inputs *)

Example payload_of_plain_object :
  getPayload (H := sample_host) "POST" (VObject [("a", VNum 1); ("b", VStr "x")])
  = Ok (VStr ("{" +:+ dq +:+ "a" +:+ dq +:+ ":1," +:+ dq +:+ "b" +:+ dq +:+ ":"
              +:+ dq +:+ "x" +:+ dq +:+ "}")).
Proof. reflexivity. Qed.

Example payload_of_empty_object :
  getPayload (H := sample_host) "POST" (VObject []) = Ok VNull.
Proof. reflexivity. Qed.

Example payload_of_GET_is_percent_encoded :
  getPayload (H := sample_host) "GET" (VObject [("q", VStr "a b")])
  = Ok (VStr "%7B%22q%22%3A%22a%20b%22%7D").
Proof. reflexivity. Qed.

Example payload_with_input_file :
  getPayload (H := sample_host) "PUT"
    (VObject [("n", VNum 3);
              ("tags", VArray [VStr "x"]);
              ("doc", VInput (Some [{| type := "text/plain"; content := "hi";
                                       name := Some "notes.txt" |}]) "")])
  = Ok (VFormData [FieldString "n" "3";
                   FieldFile "doc" {| type := "text/plain"; content := "hi";
                                      name := Some "notes.txt" |} "notes.txt"]).
Proof. reflexivity. Qed.

Example payload_blob_without_subtype_throws :
  getPayload (H := sample_host) "POST"
    (VObject [("f", VBlob {| type := ""; content := "x"; name := None |})])
  = Throw (TypeError "Cannot read properties of null").
Proof. reflexivity. Qed.

(** C1 at a POST of a name and a PNG blob. *)
Lemma C1_witness :
  exists p formdata,
    request (H := sample_host) sample_client "files" "POST"
      (VObject [("name", VStr "a"); ("avatar", VBlob png_blob)]) fresh_state
    = (Ok p,
       add_call (Fetch "http://hook.dev/files"
                       {| method := "POST";
                          headers := sent_headers sample_client "POST" fresh_state;
                          body := Some (VFormData formdata) |}) fresh_state)
    /\ sent_headers sample_client "POST" fresh_state !! "Content-Type"
       = Some "text/json".
Proof.
  destruct (C1_multipart_trigger (H := sample_host) sample_client "files" "POST"
              [("name", VStr "a"); ("avatar", VBlob png_blob)] fresh_state
              ltac:(discriminate)) as (Hfile & Htype & _).
  destruct Hfile as [Hdispatch Htotal].
  { apply Exists_cons_tl, Exists_cons_hd. reflexivity. }
  destruct Htotal as (p & st' & Hreq).
  { repeat constructor. }
  destruct (Hdispatch p st' Hreq) as [formdata Hst].
  exists p, formdata. split; [|exact Htype].
  rewrite Hreq, Hst. reflexivity.
Defined.

(** C1 as stated fails: the POST of a blob is dispatched with the multipart
    form as body and with the header Content-Type: text/json. *)
Lemma C1_counterexample :
  ~ (forall url init,
       calls (request (H := sample_host) sample_client "files" "POST"
                (VObject [("avatar", VBlob png_blob)]) fresh_state).2
       = [Fetch url init] ->
       is_FormData (default VNull (body init)) = true
       /\ headers init !! "Content-Type" = None).
Proof.
  intros Hclaim.
  destruct (Hclaim _ _ eq_refl) as [_ Hheader].
  vm_compute in Hheader. discriminate Hheader.
Qed.

(** C2 at a login response with an identifier and a token. *)
Lemma C2_witness :
  exists st',
    _registerToken (H := sample_host) sample_client
      (VObject [("_id", VNum 7);
                ("token", VObject [("token", VStr "abc");
                                   ("expire_at", VStr "2030-01-01T00:00:00.000Z")])])
      fresh_state = (Ok tt, st')
    /\ getToken sample_client st' = (Ok (VStr "abc"), st')
    /\ localStorage st' !! "1-hook-auth-token-expiration"
       = Some "2030-01-01T00:00:00.000Z"
    /\ localStorage st' !! "1-hook-auth-data" = Some ("{" +:+ dq +:+ "_id" +:+ dq +:+ ":7}")
    /\ currentUser st' = VObject [("_id", VNum 7)].
Proof.
  destruct (proj1 (C2_token_round_trip (H := sample_host) sample_client fresh_state)
              [("_id", VNum 7);
               ("token", VObject [("token", VStr "abc");
                                  ("expire_at", VStr "2030-01-01T00:00:00.000Z")])]
              [("token", VStr "abc"); ("expire_at", VStr "2030-01-01T00:00:00.000Z")]
              "abc" (VStr "2030-01-01T00:00:00.000Z")
              eq_refl eq_refl eq_refl)
    as (st' & Hreg & Htoken & Hexp & Hdata & _ & Huser & _).
  exists st'. repeat split; assumption.
Defined.

(** C3 on both sides of an expiration at 1000 ms. *)
Lemma C3_witness :
  Auth_constructor (H := sample_host) sample_client 2000 stale_state
  = (Ok tt, with_currentUser VNull stale_state)
  /\ Auth_constructor (H := sample_host) sample_client 999 stale_state
     = (Ok tt, with_currentUser (VObject []) stale_state).
Proof.
  split.
  - apply (C3_expiration_boundary (H := sample_host) sample_client 2000 stale_state
             "{}" (VObject []) "1970-01-01T00:00:01.000Z" 1000);
      [reflexivity | reflexivity | reflexivity | reflexivity | lia].
  - apply (C3_expiration_boundary (H := sample_host) sample_client 999 stale_state
             "{}" (VObject []) "1970-01-01T00:00:01.000Z" 1000);
      [reflexivity | reflexivity | reflexivity | reflexivity | lia].
Defined.

(** C4 at [setCurrentUser(undefined)] on a logged-in state: the logout
    event is emitted, [update] refuses, and [isLogged()] answers true. *)
Lemma C4_failing_input :
  truthy VUndefined = false
  /\ (isLogged (setCurrentUser (H := sample_host) sample_client VUndefined
                  logged_state).2).1 = Ok true
  /\ triggered (setCurrentUser (H := sample_host) sample_client VUndefined
                  logged_state).2
     = [("logout", VObject [("_id", VNum 7)])].
Proof.
  destruct (C4_setCurrentUser_isLogged (H := sample_host) sample_client logged_state)
    as (_ & _ & Hfalsy).
  destruct (Hfalsy VUndefined eq_refl ltac:(discriminate)) as (Hlogged & Hevent & _).
  split; [reflexivity|]. split; [exact Hlogged|exact Hevent].
Defined.

(** C5 on the stale store, one second after the expiration. *)
Lemma C5_witness :
  Auth_constructor (H := sample_host) sample_client 2000 stale_state
  = (Ok tt, with_currentUser VNull stale_state)
  /\ (getToken sample_client
        (Auth_constructor (H := sample_host) sample_client 2000 stale_state).2).1
     = Ok (VStr "abc").
Proof.
  destruct (C5_expired_session_kept (H := sample_host) sample_client 2000 stale_state
              "{}" "1970-01-01T00:00:01.000Z" 1000
              eq_refl eq_refl eq_refl ltac:(lia))
    as (Hc & _ & Htoken & _).
  split; [exact Hc|]. rewrite Htoken. reflexivity.
Defined.

(** C5 as stated fails: after the construction on the stale store the
    token and the user document are still there. *)
Lemma C5_counterexample :
  ~ (localStorage
       (Auth_constructor (H := sample_host) sample_client 2000 stale_state).2
       !! store_key sample_client AUTH_TOKEN_KEY = None
     /\ localStorage
          (Auth_constructor (H := sample_host) sample_client 2000 stale_state).2
          !! store_key sample_client AUTH_DATA_KEY = None).
Proof. intros [Htoken _]. vm_compute in Htoken. discriminate Htoken. Qed.

(** C6 at a DELETE with method override enabled. *)
Lemma C6_witness :
  exists p url init,
    request (H := sample_host) sample_client "collection/posts/1" "DELETE"
      VUndefined fresh_state
    = (Ok p, add_call (Fetch url init) fresh_state)
    /\ method init = "POST"
    /\ headers init !! "X-HTTP-Method-Override" = Some "DELETE".
Proof.
  destruct (C6_method_override (H := sample_host) sample_client
              "collection/posts/1" "DELETE" VUndefined fresh_state VNull eq_refl)
    as (p & url & init & Hreq & Hon & _).
  destruct Hon as [Hmethod Hheader]; [discriminate | discriminate | reflexivity |].
  exists p, url, init. auto.
Defined.

(** C7 at a token and a password. *)
Lemma C7_witness :
  exists payload,
    resetPassword (H := sample_host) sample_client
      (VObject [("token", VStr "t"); ("password", VStr "x")]) fresh_state
    = (Ok {| reactions := [] |},
       add_call (Fetch "http://hook.dev/auth/email/resetPassword"
                       {| method := "POST";
                          headers := sent_headers sample_client "POST" fresh_state;
                          body := Some payload |}) fresh_state).
Proof.
  destruct (proj2 (C7_resetPassword (H := sample_host) sample_client
                     (VObject [("token", VStr "t"); ("password", VStr "x")])
                     fresh_state) eq_refl eq_refl)
    as (_ & Hok & _ & Htotal).
  destruct Htotal as [payload Hp]; [repeat constructor|].
  exists payload. apply Hok. exact Hp.
Defined.

(** C7 as stated fails: with a token, a password and a canvas field, on a
    host without [dataURLtoBlob], both are strings and no request is made. *)
Lemma C7_counterexample :
  let data := VObject [("token", VStr "t"); ("password", VStr "x");
                       ("avatar", VCanvas "data:image/png;base64,AAAA")] in
  is_string (get_prop data "token") = true
  /\ is_string (get_prop data "password") = true
  /\ ~ (exists init,
          calls (resetPassword (H := sample_host) sample_client data fresh_state).2
          = [Fetch "http://hook.dev/auth/email/resetPassword" init]).
Proof.
  split; [reflexivity|]. split; [reflexivity|].
  intros [init Hcalls]. vm_compute in Hcalls. discriminate Hcalls.
Qed.

(** C8 without and with a current user. *)
Lemma C8_witness :
  update (H := sample_host) sample_client (VObject [("score", VNum 100)]) fresh_state
  = (Throw (PlainError "not logged in."), fresh_state)
  /\ exists p,
       update (H := sample_host) sample_client (VObject [("score", VNum 100)])
         logged_state
       = (Ok p, add_call (CollectionUpdate "auth" (VNum 7)
                            (VObject [("score", VNum 100)])) logged_state)
       /\ forall doc st1,
            fulfil p doc st1 = (setCurrentUser (H := sample_host) sample_client doc st1).2.
Proof.
  split.
  - apply (proj1 (C8_update (H := sample_host) sample_client
                    (VObject [("score", VNum 100)]) fresh_state)).
    reflexivity.
  - destruct (proj2 (C8_update (H := sample_host) sample_client
                       (VObject [("score", VNum 100)]) logged_state) eq_refl)
      as (id & p & Hid & Hupdate & Hthen).
    injection Hid as <-. exists p. split; assumption.
Defined.

(** C9 at a date one and a half seconds after the epoch. *)
Lemma C9_witness :
  getPayload (H := sample_host) "POST" (VObject [("at", VDate (Some 1500))])
  = Ok (VStr ("{" +:+ dq +:+ "at" +:+ dq +:+ ":2}"))
  /\ Math_round_div 1500 1000 = unix_epoch_seconds 1500 + 1.
Proof.
  destruct (C9_date_fields (H := sample_host) "POST"
              [("at", VDate (Some 1500))] "at" 1500
              ltac:(left; reflexivity) eq_refl)
    as (Hpayload & _ & _ & Hseconds).
  split; [exact Hpayload | exact Hseconds].
Defined.

(** C9 as stated fails: the date 1500 ms has Unix-epoch seconds 1 and is
    written as 2. *)
Lemma C9_counterexample :
  unix_epoch_seconds 1500 = 1
  /\ getPayload (H := sample_host) "POST" (VObject [("at", VDate (Some 1500))])
     = Ok (VStr ("{" +:+ dq +:+ "at" +:+ dq +:+ ":2}"))
  /\ getPayload (H := sample_host) "POST" (VObject [("at", VDate (Some 1500))])
     <> Ok (VStr ("{" +:+ dq +:+ "at" +:+ dq +:+ ":"
                  +:+ pretty (unix_epoch_seconds 1500) +:+ "}")).
Proof.
  split; [reflexivity|]. split; [reflexivity|].
  vm_compute. discriminate.
Qed.

(** C10 at a GET without data and at a GET of an empty object. *)
Lemma C10_witness :
  request (H := sample_host) sample_client "collection/posts" "GET" VUndefined
    fresh_state
  = (Ok {| reactions := [] |},
     add_call (Fetch "http://hook.dev/collection/posts?null"
                     {| method := "GET";
                        headers := sent_headers sample_client "GET" fresh_state;
                        body := None |}) fresh_state)
  /\ request (H := sample_host) sample_client "collection/posts" "GET" (VObject [])
       fresh_state
     = (Ok {| reactions := [] |},
        add_call (Fetch "http://hook.dev/collection/posts?null"
                        {| method := "GET";
                           headers := sent_headers sample_client "GET" fresh_state;
                           body := None |}) fresh_state).
Proof.
  split.
  - apply (C10_get_null_query (H := sample_host) sample_client "collection/posts"
             VUndefined fresh_state).
    left. reflexivity.
  - apply (C10_get_null_query (H := sample_host) sample_client "collection/posts"
             (VObject []) fresh_state).
    right. split; reflexivity.
Defined.

(** * Further properties of the code *)

Section Further.
Context `{Host}.

(** ** Construction *)

Lemma lastIndexOf_from_last s : forall i found,
  found < i ->
  lastIndexOf_from "/" s i found <= i + Z.of_nat (String.length s) - 1
  /\ (lastIndexOf_from "/" s i found = i + Z.of_nat (String.length s) - 1
      <-> (s = "" /\ found = i - 1) \/ ends_with_slash s = true).
Proof.
  induction s as [|c rest IH]; intros i found Hlt.
  - cbn [lastIndexOf_from String.length ends_with_slash]. split; [lia|].
    split; [intros Heq; left; split; [reflexivity|lia]|].
    intros [[_ Heq] | Hend]; [lia|discriminate Hend].
  - cbn [lastIndexOf_from].
    set (found' := if Ascii.eqb c "/" then i else found).
    assert (Hlt' : found' < i + 1) by (unfold found'; destruct (Ascii.eqb c "/"); lia).
    destruct (IH (i + 1) found' Hlt') as [Hle Hiff].
    replace (i + Z.of_nat (String.length (String c rest)) - 1)
      with (i + 1 + Z.of_nat (String.length rest) - 1)
      by (cbn [String.length]; lia).
    split; [exact Hle|]. rewrite Hiff. clear Hiff Hle IH.
    destruct rest as [|c' rest'].
    + cbn [ends_with_slash]. unfold found'.
      destruct (Ascii.eqb c "/"); split.
      * intros _. right. reflexivity.
      * intros _. left. split; [reflexivity|lia].
      * intros [[_ Heq] | Hend]; [lia|discriminate Hend].
      * intros [[Heq _] | Hend]; [discriminate Heq|discriminate Hend].
    + cbn [ends_with_slash]. split.
      * intros [[Heq _] | Hend]; [discriminate Heq|right; exact Hend].
      * intros [[Heq _] | Hend]; [discriminate Heq|right; exact Hend].
Qed.

Lemma with_last_slash_string s :
  with_last_slash (VStr s)
  = Ok (if ends_with_slash s || String.eqb s "" then s else s +:+ "/").
Proof.
  unfold with_last_slash, lastIndexOf.
  destruct (lastIndexOf_from_last s 0 (-1) ltac:(lia)) as [_ Hiff].
  f_equal.
  destruct (Z.eqb_spec (lastIndexOf_from "/" s 0 (-1))
                       (Z.of_nat (String.length s) - 1)) as [Heq | Hne].
  - replace (Z.of_nat (String.length s) - 1)
      with (0 + Z.of_nat (String.length s) - 1) in Heq by lia.
    apply Hiff in Heq. destruct Heq as [[-> _] | ->]; reflexivity.
  - destruct (ends_with_slash s) eqn:Hend.
    + exfalso. apply Hne.
      replace (Z.of_nat (String.length s) - 1)
        with (0 + Z.of_nat (String.length s) - 1) by lia.
      apply Hiff. right. reflexivity.
    + destruct s; [|reflexivity].
      exfalso. apply Hne. reflexivity.
Qed.

Lemma ends_with_slash_app s : ends_with_slash (s +:+ "/") = true.
Proof.
  induction s as [|c rest IH]; [reflexivity|].
  change (String c rest +:+ "/") with (String c (rest +:+ "/")).
  cbn [ends_with_slash].
  destruct (rest +:+ "/") eqn:Happ; [|exact IH].
  destruct rest; discriminate Happ.
Qed.

(** X1. A client built from a string endpoint (or, when [endpoint] is
    missing or falsy, from [url]) has that string as endpoint, with one
    slash added unless it already ends with a slash or is empty: a non-empty
    endpoint always ends with a slash, the empty one stays empty, and
    normalizing again changes nothing. *)
Theorem Client_constructor_endpoint fields c s :
  or_else (default VUndefined (assoc "endpoint" fields))
          (default VUndefined (assoc "url" fields)) = VStr s ->
  Client_constructor (VObject fields) = Ok c ->
  endpoint c = (if ends_with_slash s || String.eqb s "" then s else s +:+ "/")
  /\ (s <> "" -> ends_with_slash (endpoint c) = true)
  /\ with_last_slash (VStr (endpoint c)) = Ok (endpoint c).
Proof.
  intros Hs Hc. unfold Client_constructor in Hc.
  cbn [truthy get_prop bind Res_monad] in Hc.
  rewrite Hs, with_last_slash_string in Hc.
  match type of Hc with
  | context [get_prop ?o "method_override"] =>
      destruct (get_prop o "method_override") as [m|e]; [|discriminate Hc]
  end.
  injection Hc as <-. cbn [endpoint].
  assert (Hend : s <> "" ->
                 ends_with_slash
                   (if ends_with_slash s || String.eqb s "" then s else s +:+ "/")
                 = true).
  { intros Hne. apply String.eqb_neq in Hne. rewrite Hne, orb_false_r.
    destruct (ends_with_slash s) eqn:Hslash; [exact Hslash|].
    apply ends_with_slash_app. }
  split; [reflexivity|]. split; [exact Hend|].
  rewrite with_last_slash_string. f_equal.
  destruct (String.eqb s "") eqn:Hempty.
  - apply String.eqb_eq in Hempty. subst s. reflexivity.
  - apply String.eqb_neq in Hempty. rewrite (Hend Hempty). reflexivity.
Qed.

(** X2. Without options, or with options that have neither [endpoint] nor
    [url], the construction throws a [TypeError]: no default endpoint is
    supplied. *)
Theorem Client_constructor_no_endpoint options :
  truthy options = false
  \/ (exists fields, options = VObject fields
                     /\ assoc "endpoint" fields = None
                     /\ assoc "url" fields = None) ->
  exists msg, Client_constructor options = Throw (TypeError msg).
Proof.
  intros [Hfalsy | (fields & -> & He & Hu)]; unfold Client_constructor;
    eexists.
  - rewrite Hfalsy. reflexivity.
  - cbn [truthy get_prop bind Res_monad]. rewrite He, Hu. reflexivity.
Qed.

(** ** Headers, URLs and the frame of a request *)

Lemma append_empty_r (s : string) : s +:+ "" = s.
Proof.
  induction s as [|ch s IH]; [reflexivity|].
  change (String ch s +:+ "") with (String ch (s +:+ "")). rewrite IH.
  reflexivity.
Qed.

Lemma auth_headers_credentials c st :
  auth_headers c st !! "X-App-Id" = Some (app_id c)
  /\ auth_headers c st !! "X-App-Key" = Some (key c)
  /\ auth_headers c st !! "X-Auth-Token"
     = match localStorage st !! store_key c AUTH_TOKEN_KEY with
       | Some token => if String.eqb token "" then None else Some token
       | None => None
       end.
Proof.
  unfold auth_headers.
  destruct (localStorage st !! store_key c AUTH_TOKEN_KEY) as [token|];
    [destruct (String.eqb token "")|];
    repeat split;
    repeat first [ rewrite lookup_insert_eq
                 | rewrite lookup_insert_ne by discriminate
                 | rewrite lookup_empty ];
    reflexivity.
Qed.

Lemma sent_headers_credentials c method st k :
  k <> "Content-Type" -> k <> "X-HTTP-Method-Override" ->
  sent_headers c method st !! k = auth_headers c st !! k.
Proof.
  intros Htype Hoverride. unfold sent_headers.
  destruct (overridden c method);
    repeat (rewrite lookup_insert_ne by (apply not_eq_sym; assumption));
    reflexivity.
Qed.

Lemma request_headers_lookup c segments verb data st p st' :
  request c segments verb data st = (Ok p, st') ->
  exists url init,
    st' = add_call (Fetch url init) st
    /\ forall k, k <> "Content-Type" -> k <> "X-HTTP-Method-Override" ->
                 headers init !! k = auth_headers c st !! k.
Proof.
  intros Hreq.
  destruct (getPayload (sent_method c verb) data) as [payload|e] eqn:Hp.
  - destruct (request_dispatch c segments verb data st payload Hp)
      as (url0 & body0 & Hd & _).
    rewrite Hd in Hreq. injection Hreq as _ <-.
    eexists _, _. split; [reflexivity|]. cbn [headers].
    intros k Htype Hoverride. apply sent_headers_credentials; assumption.
  - rewrite request_eq, Hp in Hreq. discriminate Hreq.
Qed.

(** X3. Every dispatched request carries [X-App-Id] and [X-App-Key] of the
    client, and [X-Auth-Token] exactly when the store holds a non-empty
    token, with that token as value. *)
Theorem request_credentials c segments verb data st p st' :
  request c segments verb data st = (Ok p, st') ->
  exists url init,
    st' = add_call (Fetch url init) st
    /\ headers init !! "X-App-Id" = Some (app_id c)
    /\ headers init !! "X-App-Key" = Some (key c)
    /\ headers init !! "X-Auth-Token"
       = match localStorage st !! store_key c AUTH_TOKEN_KEY with
         | Some token => if String.eqb token "" then None else Some token
         | None => None
         end.
Proof.
  intros Hreq.
  destruct (request_headers_lookup _ _ _ _ _ _ _ Hreq)
    as (url0 & init & Hst & Hlookup).
  exists url0, init. split; [exact Hst|].
  rewrite !Hlookup by discriminate.
  apply auth_headers_credentials.
Qed.

(** X4. [url(route, params)] reads the state and does not change it, and
    puts into the URL the credentials [getHeaders] puts into the headers:
    the token parameter is there exactly when the header is, with the same
    value; the serialized parameters follow when [params] is truthy. *)
Theorem url_credentials c route params st :
  exists request_headers,
    getHeaders c st = (Ok request_headers, st)
    /\ url c route params st
       = (Ok (endpoint c +:+ route
              +:+ (("?X-App-Id=" +:+ app_id c +:+ "&X-App-Key=" +:+ key c)
                   +:+ match request_headers !! "X-Auth-Token" with
                       | Some token => "&X-Auth-Token=" +:+ token
                       | None => ""
                       end)
              +:+ (if truthy params then "&" +:+ serialize params "" else "")),
          st).
Proof.
  exists (auth_headers c st). split; [apply getHeaders_eq|].
  destruct (auth_headers_credentials c st) as (_ & _ & ->).
  unfold url, getCredentialsParams, getToken, getItem.
  cbn [bind M_monad ret].
  destruct (localStorage st !! store_key c AUTH_TOKEN_KEY) as [token|];
    cbn [truthy ToString].
  - destruct (String.eqb token ""); cbn [negb]; [|reflexivity].
    rewrite append_empty_r. reflexivity.
  - rewrite append_empty_r. reflexivity.
Qed.

(** X5. A request never touches the session: the current user, the store
    and the emitted events are as before; it adds exactly one [fetch] when
    it returns and none when the payload encoding throws. *)
Theorem request_frame c segments verb data st :
  currentUser (request c segments verb data st).2 = currentUser st
  /\ localStorage (request c segments verb data st).2 = localStorage st
  /\ triggered (request c segments verb data st).2 = triggered st
  /\ match (request c segments verb data st).1 with
     | Ok _ =>
         exists url init,
           calls (request c segments verb data st).2
           = (calls st ++ [Fetch url init])%list
     | Throw _ => calls (request c segments verb data st).2 = calls st
     end.
Proof.
  rewrite request_eq.
  destruct (getPayload (sent_method c verb) data) as [payload|e];
    cbn [fst snd]; [|auto].
  repeat split; try reflexivity.
  destruct (String.eqb (sent_method c verb) "GET"); eexists _, _; reflexivity.
Qed.

(** ** Characters of encoded text *)

Lemma string_forallb_app f (a b : string) :
  string_forallb f (a +:+ b) = string_forallb f a && string_forallb f b.
Proof.
  induction a as [|ch a IH]; [reflexivity|].
  change (String ch a +:+ b) with (String ch (a +:+ b)).
  cbn [string_forallb]. rewrite IH, andb_assoc. reflexivity.
Qed.

Lemma string_forallb_impl (f g : ascii -> bool) (s : string) :
  (forall ch, f ch = true -> g ch = true) ->
  string_forallb f s = true -> string_forallb g s = true.
Proof.
  intros Hfg. induction s as [|ch s IH]; [reflexivity|].
  cbn [string_forallb]. intros [Hch Hs]%andb_true_iff.
  rewrite (Hfg _ Hch), (IH Hs). reflexivity.
Qed.

Lemma string_forallb_flat_map f g (s : string) :
  (forall ch, string_forallb f (g ch) = true) ->
  string_forallb f (flat_map_string g s) = true.
Proof.
  intros Hg. induction s as [|ch s IH]; [reflexivity|].
  cbn [flat_map_string]. rewrite string_forallb_app, Hg, IH. reflexivity.
Qed.

Lemma string_forallb_join f (sep : string) (l : list string) :
  string_forallb f sep = true ->
  Forall (fun s => string_forallb f s = true) l ->
  string_forallb f (join sep l) = true.
Proof.
  intros Hsep Hall. unfold join.
  induction Hall as [|s l Hs Hl IH]; [reflexivity|].
  cbn [String.concat]. destruct l as [|s' l']; [exact Hs|].
  rewrite !string_forallb_app, Hs, Hsep, IH. reflexivity.
Qed.

Lemma escape_component ch :
  string_forallb component_char ("%" +:+ hex2 "0123456789ABCDEF" ch) = true.
Proof. destruct ch as [[] [] [] [] [] [] [] []]; reflexivity. Qed.

Lemma encodeURIComponent_component (s : string) :
  string_forallb component_char (encodeURIComponent s) = true.
Proof.
  unfold encodeURIComponent. apply string_forallb_flat_map. intros ch.
  destruct (unreserved ch) eqn:Hu; [|apply escape_component].
  cbn [string_forallb]. unfold component_char. rewrite Hu. reflexivity.
Qed.

Lemma component_query ch : component_char ch = true -> query_char ch = true.
Proof. unfold query_char. intros ->. reflexivity. Qed.

Lemma pair_query (k v : string) :
  string_forallb query_char
    (encodeURIComponent k +:+ "=" +:+ encodeURIComponent v) = true.
Proof.
  rewrite !string_forallb_app.
  rewrite !(string_forallb_impl _ _ _ component_query
              (encodeURIComponent_component _)).
  reflexivity.
Qed.

(** X6. Whatever the parameters, nested or not, the text [serialize]
    returns is made of unreserved characters, percent escapes and the
    separators [=] and [&]: names and values are always escaped, the
    brackets of nested names included. *)
Theorem serialize_query_chars : forall (obj : value) (prefix : string),
  string_forallb query_char (serialize obj prefix) = true.
Proof.
  fix IH 1. intros obj prefix.
  destruct obj as [| |b|n|s|t|items|fields|files val|durl|b|entries];
    try reflexivity.
  - cbn [serialize]. apply string_forallb_join; [reflexivity|].
    generalize 0 as i.
    induction s as [|ch s IHs]; intros i; cbn [chars_from map fst snd];
      constructor.
    + apply pair_query.
    + apply IHs.
  - cbn [serialize]. apply string_forallb_join; [reflexivity|].
    generalize 0 as i. revert items. fix IHl 1. intros [|v rest] i.
    + constructor.
    + constructor; [|apply IHl].
      destruct (String.eqb (typeof v) "object"); [apply IH|apply pair_query].
  - cbn [serialize]. apply string_forallb_join; [reflexivity|].
    revert fields. fix IHl 1. intros [|[p v] rest].
    + constructor.
    + constructor; [|apply IHl].
      destruct (String.eqb (typeof v) "object"); [apply IH|apply pair_query].
Qed.

(** X7. A GET request never throws and never has a body, whatever the
    data (a canvas without converter, a blob without media type): it is
    dispatched exactly once. Its query is made of unreserved characters and
    percent escapes only, except for a pre-built form, which is not sent:
    the query is then the text of the object's conversion to a string. *)
Theorem request_GET_query c segments data st :
  exists query,
    request c segments "GET" data st
    = (Ok {| reactions := [] |},
       add_call (Fetch ((endpoint c +:+ segments) +:+ "?" +:+ query)
                       {| method := "GET";
                          headers := sent_headers c "GET" st;
                          body := None |}) st)
    /\ (is_FormData data = true -> query = "[object FormData]")
    /\ (is_FormData data = false -> string_forallb component_char query = true).
Proof.
  rewrite request_eq.
  change (sent_method c "GET") with "GET". cbn [String.eqb Ascii.eqb].
  destruct (is_FormData data) eqn:Hform.
  - destruct data; try discriminate Hform.
    exists "[object FormData]". split; [reflexivity|]. split; [reflexivity|].
    discriminate.
  - destruct (truthy data) eqn:Ht.
    + rewrite getPayload_GET by assumption.
      destruct (SerializeJSONProperty true data) as [text|].
      * destruct (String.eqb text "{}").
        -- exists "null". repeat split; discriminate.
        -- exists (encodeURIComponent text).
           split; [reflexivity|]. split; [discriminate|].
           intros _. apply encodeURIComponent_component.
      * exists "undefined". repeat split; discriminate.
    + rewrite getPayload_falsy by assumption.
      exists "null". repeat split; discriminate.
Qed.

(** ** The multipart form *)

Lemma resolve_field_ok_encodable v worth r :
  resolve_field v worth = Ok r -> encodable v = true.
Proof.
  destruct v as [| |b|n|s|t|items|fields|files val|durl|b|entries];
    try reflexivity; cbn [resolve_field encodable].
  - destruct dataURLtoBlob; [reflexivity|discriminate].
  - destruct (match_after_slash (type b)); [reflexivity|discriminate].
Qed.

Lemma payload_fields_ok_encodable todo : forall formdata worth r,
  payload_fields todo formdata worth = Ok r ->
  Forall (fun kv => encodable kv.2 = true) todo.
Proof.
  induction todo as [|[field v] rest IH]; intros formdata worth r Hp;
    constructor.
  - rewrite payload_fields_cons in Hp. cbn [snd].
    destruct (resolve_field v worth) as [[[v' filename] w]|e] eqn:Hr.
    + apply resolve_field_ok_encodable in Hr. exact Hr.
    + destruct v; try discriminate Hp; reflexivity.
  - rewrite payload_fields_cons in Hp.
    destruct (resolve_field v worth) as [[[v' filename] w]|e] eqn:Hr.
    + destruct v; eapply IH; exact Hp.
    + destruct v; try discriminate Hp; eapply IH; exact Hp.
Qed.

(** X8. For a verb other than GET, the payload of a data object encodes
    exactly when no field throws: every canvas field finds [dataURLtoBlob]
    and every blob field has a slash in its media type. One such field
    anywhere in the object fails the whole request. *)
Theorem getPayload_succeeds_iff verb (fields : list (string * value)) :
  verb <> "GET" ->
  (exists payload, getPayload verb (VObject fields) = Ok payload)
  <-> Forall (fun kv => encodable kv.2 = true) fields.
Proof.
  intros Hverb. rewrite (getPayload_object _ _ Hverb). split.
  - intros [payload Hp].
    destruct (payload_fields fields [] false) as [r|e] eqn:Hf;
      [|discriminate Hp].
    eapply payload_fields_ok_encodable. exact Hf.
  - intros Hall.
    destruct (payload_fields_encodable fields [] false Hall) as [[formdata [|]] ->];
      [eauto|].
    cbv zeta. destruct (String.eqb _ "{}"); eauto.
Qed.

Lemma append_field_names formdata field v worth v' filename worth' :
  resolve_field v worth = Ok (v', filename, worth') ->
  map entry_field (append_field formdata field v' filename)
  = (map entry_field formdata ++ (if appended v then [field] else []))%list.
Proof.
  destruct v as [| |b|n|s|t|items|fields|files val|durl|b|entries];
    cbn [resolve_field appended]; intros Hr;
    try (injection Hr as <- _ _; cbn [append_field];
         rewrite ?map_app, ?app_nil_r; reflexivity).
  - destruct files as [[|file files']|]; injection Hr as <- _ _;
      cbn [append_field]; rewrite map_app; reflexivity.
  - destruct dataURLtoBlob; [|discriminate Hr]. injection Hr as <- _ _.
    cbn [append_field]. rewrite map_app. reflexivity.
  - destruct (match_after_slash (type b)); [|discriminate Hr].
    cbn [bind Res_monad] in Hr. injection Hr as <- _ _.
    cbn [append_field]. rewrite map_app. reflexivity.
Qed.

Lemma payload_fields_names todo : forall formdata worth formdata' worth',
  payload_fields todo formdata worth = Ok (formdata', worth') ->
  map entry_field formdata'
  = (map entry_field formdata
     ++ map fst (List.filter (fun kv => appended kv.2) todo))%list.
Proof.
  induction todo as [|[field v] rest IH]; intros formdata worth formdata' worth' Hp.
  - cbn in Hp. injection Hp as <- _. cbn. rewrite app_nil_r. reflexivity.
  - rewrite payload_fields_cons in Hp. cbn [List.filter snd].
    destruct (resolve_field v worth) as [[[v' filename] w]|e] eqn:Hr.
    + destruct v; try (apply IH in Hp; exact Hp);
        apply IH in Hp; rewrite Hp;
        rewrite (append_field_names _ _ _ _ _ _ _ Hr);
        cbn [appended map fst]; rewrite <- ?app_assoc, ?app_nil_r; reflexivity.
    + destruct v; try discriminate Hp; apply IH in Hp; exact Hp.
Qed.

(** X9. When a request body is a multipart form, the names of its entries
    are, in order, the names of the fields holding a boolean, a number, a
    string, an input, a canvas or a blob: one entry each, and none for a
    field holding [undefined], [null], an array, a date or a plain object. *)
Theorem multipart_entry_names verb (fields : list (string * value)) formdata :
  verb <> "GET" ->
  getPayload verb (VObject fields) = Ok (VFormData formdata) ->
  map entry_field formdata
  = map fst (List.filter (fun kv => appended kv.2) fields).
Proof.
  intros Hverb Hp. rewrite (getPayload_object _ _ Hverb) in Hp.
  destruct (payload_fields fields [] false) as [[formdata' [|]]|e] eqn:Hf.
  - injection Hp as <-. apply payload_fields_names in Hf. exact Hf.
  - cbv zeta in Hp. destruct (String.eqb _ "{}"); discriminate Hp.
  - discriminate Hp.
Qed.

Lemma upto_line_end_one_line (s : string) :
  one_line s = true -> upto_line_end s = s.
Proof.
  induction s as [|ch s IH]; [reflexivity|].
  unfold one_line. cbn [string_forallb upto_line_end].
  intros [Hch Hs]%andb_true_iff. apply negb_true_iff in Hch.
  rewrite Hch. f_equal. apply IH. exact Hs.
Qed.

Lemma match_after_slash_split (main sub : string) :
  no_slash main = true -> one_line sub = true ->
  match_after_slash (main +:+ "/" +:+ sub) = Ok sub.
Proof.
  intros Hmain Hsub. induction main as [|ch main IH].
  - change (match_after_slash ("" +:+ "/" +:+ sub))
      with (Ok (upto_line_end sub)).
    rewrite (upto_line_end_one_line _ Hsub). reflexivity.
  - unfold no_slash in Hmain. cbn [string_forallb] in Hmain.
    apply andb_true_iff in Hmain as [Hch Hmain]. apply negb_true_iff in Hch.
    change (String ch main +:+ "/" +:+ sub)
      with (String ch (main +:+ "/" +:+ sub)).
    cbn [match_after_slash]. rewrite Hch. apply IH. exact Hmain.
Qed.

Lemma append_field_keeps formdata field v filename e :
  In e formdata -> In e (append_field formdata field v filename).
Proof.
  intros Hin. destruct v; cbn [append_field]; try exact Hin;
    apply in_or_app; left; exact Hin.
Qed.

Lemma payload_fields_keeps todo : forall formdata worth formdata' worth' e,
  payload_fields todo formdata worth = Ok (formdata', worth') ->
  In e formdata -> In e formdata'.
Proof.
  induction todo as [|[field v] rest IH]; intros formdata worth formdata' worth' e Hp Hin.
  - cbn in Hp. injection Hp as <- _. exact Hin.
  - rewrite payload_fields_cons in Hp.
    destruct (resolve_field v worth) as [[[v' filename] w]|err] eqn:Hr.
    + destruct v; apply (IH _ _ _ _ _ Hp);
        try exact Hin; apply append_field_keeps; exact Hin.
    + destruct v; try discriminate Hp; apply (IH _ _ _ _ _ Hp); exact Hin.
Qed.

Lemma payload_fields_blob todo : forall formdata worth formdata' worth' k b,
  payload_fields todo formdata worth = Ok (formdata', worth') ->
  In (k, VBlob b) todo ->
  exists ext,
    match_after_slash (type b) = Ok ext
    /\ In (FieldFile k b ("blob." +:+ ext)) formdata'.
Proof.
  induction todo as [|[field v] rest IH]; intros formdata worth formdata' worth' k b Hp Hin;
    [contradiction|].
  destruct Hin as [Heq | Hin].
  - injection Heq as -> ->. rewrite payload_fields_cons in Hp.
    cbn [resolve_field] in Hp.
    destruct (match_after_slash (type b)) as [ext|err]; [|discriminate Hp].
    cbn [bind Res_monad] in Hp. exists ext. split; [reflexivity|].
    apply (payload_fields_keeps _ _ _ _ _ _ Hp).
    cbn [append_field]. apply in_or_app. right. left. reflexivity.
  - rewrite payload_fields_cons in Hp.
    destruct (resolve_field v worth) as [[[v' filename] w]|err] eqn:Hr.
    + destruct v; apply (IH _ _ _ _ _ _ Hp Hin).
    + destruct v; try discriminate Hp; apply (IH _ _ _ _ _ _ Hp Hin).
Qed.

(** X10. In a multipart form a blob field is sent under the file name
    [blob.] followed by the subtype of its media type, the text after the
    first slash, whatever name a [File] carries. *)
Theorem blob_field_filename verb (fields : list (string * value)) formdata
    k b main sub :
  verb <> "GET" ->
  getPayload verb (VObject fields) = Ok (VFormData formdata) ->
  In (k, VBlob b) fields ->
  type b = main +:+ "/" +:+ sub ->
  no_slash main = true -> one_line sub = true ->
  In (FieldFile k b ("blob." +:+ sub)) formdata.
Proof.
  intros Hverb Hp Hin Htype Hmain Hsub.
  rewrite (getPayload_object _ _ Hverb) in Hp.
  destruct (payload_fields fields [] false) as [[formdata' [|]]|e] eqn:Hf.
  - injection Hp as <-.
    destruct (payload_fields_blob _ _ _ _ _ _ _ Hf Hin) as (ext & Hext & Hentry).
    rewrite Htype, (match_after_slash_split _ _ Hmain Hsub) in Hext.
    injection Hext as <-. exact Hentry.
  - cbv zeta in Hp. destruct (String.eqb _ "{}"); discriminate Hp.
  - discriminate Hp.
Qed.

(** ** The session *)

Lemma _registerToken_state c (fields tok : list (string * value)) st :
  assoc "token" fields = Some (VObject tok) ->
  _registerToken c (VObject fields) st
  = (Ok tt,
     add_triggered "login" (VObject (remove_key "token" fields))
       (with_currentUser (VObject (remove_key "token" fields))
          (with_localStorage
             (<[store_key c AUTH_DATA_KEY :=
                  "{" +:+ join "," (json_members false (remove_key "token" fields))
                  +:+ "}"]>
                (<[store_key c AUTH_TOKEN_EXPIRATION :=
                     ToString (default VUndefined (assoc "expire_at" tok))]>
                   (<[store_key c AUTH_TOKEN_KEY :=
                        ToString (default VUndefined (assoc "token" tok))]>
                      (localStorage st)))) st))).
Proof.
  intros Htok. unfold _registerToken, lift.
  cbn [bind M_monad get_prop]. rewrite Htok.
  cbn [from_option id truthy get_prop delete_prop setItem].
  rewrite setCurrentUser_truthy by reflexivity.
  unfold JSON_stringify. rewrite SerializeJSONProperty_object. reflexivity.
Qed.

Lemma _registerToken_token c (fields tok : list (string * value)) T st :
  assoc "token" fields = Some (VObject tok) ->
  assoc "token" tok = Some (VStr T) ->
  localStorage (_registerToken c (VObject fields) st).2
    !! store_key c AUTH_TOKEN_KEY = Some T.
Proof.
  intros Htok HT. rewrite (_registerToken_state _ _ _ _ Htok), HT.
  cbn [snd localStorage add_triggered with_currentUser with_localStorage
       from_option id ToString].
  rewrite lookup_insert_ne by (apply not_eq_sym, token_key_not_data).
  rewrite lookup_insert_ne by (apply not_eq_sym, token_key_not_expiration).
  apply lookup_insert_eq.
Qed.

Lemma logout_state c st :
  logout c st
  = (Ok tt,
     with_localStorage
       (delete (store_key c AUTH_DATA_KEY)
          (delete (store_key c AUTH_TOKEN_KEY) (localStorage st)))
       (with_currentUser VNull (add_triggered "logout" (currentUser st) st))).
Proof. unfold logout. apply setCurrentUser_falsy. reflexivity. Qed.

(** X11. [logout()] emits one logout event carrying the previous user,
    nulls the current user, and removes the token and the user document
    from the store; every other entry, the expiration of the token
    included, stays as it was, and nothing is sent. *)
Theorem logout_clears c st :
  (logout c st).1 = Ok tt
  /\ currentUser (logout c st).2 = VNull
  /\ (isLogged (logout c st).2).1 = Ok false
  /\ (getToken c (logout c st).2).1 = Ok VNull
  /\ localStorage (logout c st).2 !! store_key c AUTH_DATA_KEY = None
  /\ (forall k, k <> store_key c AUTH_TOKEN_KEY ->
                k <> store_key c AUTH_DATA_KEY ->
                localStorage (logout c st).2 !! k = localStorage st !! k)
  /\ localStorage (logout c st).2 !! store_key c AUTH_TOKEN_EXPIRATION
     = localStorage st !! store_key c AUTH_TOKEN_EXPIRATION
  /\ triggered (logout c st).2
     = (triggered st ++ [("logout", currentUser st)])%list
  /\ calls (logout c st).2 = calls st.
Proof.
  rewrite logout_state. unfold getToken, getItem, isLogged.
  cbn [fst snd currentUser localStorage triggered calls
       with_localStorage with_currentUser add_triggered].
  assert (Hother : forall k, k <> store_key c AUTH_TOKEN_KEY ->
                     k <> store_key c AUTH_DATA_KEY ->
                     delete (store_key c AUTH_DATA_KEY)
                       (delete (store_key c AUTH_TOKEN_KEY) (localStorage st)) !! k
                     = localStorage st !! k).
  { intros k Htoken Hdata.
    rewrite lookup_delete_ne by (apply not_eq_sym; exact Hdata).
    apply lookup_delete_ne. apply not_eq_sym. exact Htoken. }
  repeat split; try reflexivity.
  - rewrite lookup_delete_ne by (apply not_eq_sym, token_key_not_data).
    rewrite lookup_delete_eq. reflexivity.
  - apply lookup_delete_eq.
  - exact Hother.
  - apply Hother; [apply not_eq_sym, token_key_not_expiration
                  |apply expiration_key_not_data].
Qed.

(** X12. Once a response with a non-empty token [T] went through the
    token-registration step, every request dispatched from that state
    carries the header [X-Auth-Token: T]. *)
Theorem registered_token_is_sent c (fields tok : list (string * value)) T st
    segments verb data p st' :
  assoc "token" fields = Some (VObject tok) ->
  assoc "token" tok = Some (VStr T) ->
  T <> "" ->
  request c segments verb data (_registerToken c (VObject fields) st).2
  = (Ok p, st') ->
  exists url init,
    st' = add_call (Fetch url init) (_registerToken c (VObject fields) st).2
    /\ headers init !! "X-Auth-Token" = Some T.
Proof.
  intros Htok HT Hne Hreq.
  destruct (request_headers_lookup _ _ _ _ _ _ _ Hreq)
    as (url0 & init & Hst & Hlookup).
  exists url0, init. split; [exact Hst|].
  rewrite Hlookup by discriminate.
  destruct (auth_headers_credentials c (_registerToken c (VObject fields) st).2)
    as (_ & _ & ->).
  rewrite (_registerToken_token _ _ _ _ _ Htok HT).
  apply String.eqb_neq in Hne. rewrite Hne. reflexivity.
Qed.

(** X13. After [logout()] no dispatched request carries [X-Auth-Token]. *)
Theorem logout_drops_token_header c st segments verb data p st' :
  request c segments verb data (logout c st).2 = (Ok p, st') ->
  exists url init,
    st' = add_call (Fetch url init) (logout c st).2
    /\ headers init !! "X-Auth-Token" = None.
Proof.
  intros Hreq.
  destruct (request_headers_lookup _ _ _ _ _ _ _ Hreq)
    as (url0 & init & Hst & Hlookup).
  exists url0, init. split; [exact Hst|].
  rewrite Hlookup by discriminate.
  destruct (auth_headers_credentials c (logout c st).2) as (_ & _ & ->).
  rewrite logout_state.
  cbn [snd localStorage with_localStorage].
  rewrite lookup_delete_ne by (apply not_eq_sym, token_key_not_data).
  rewrite lookup_delete_eq. reflexivity.
Qed.

(** X14. A session outlives a restart until it expires: after the
    token-registration step, on a host whose [Date.parse] reads the stored
    expiration as the time [t] and whose [JSON.parse] reads the stored
    document as [d], a new [Auth] has [d] as current user when built before
    [t] and no current user when built at [t] or later. *)
Theorem session_survives_restart c (fields tok : list (string * value)) E t d
    now st :
  assoc "token" fields = Some (VObject tok) ->
  assoc "expire_at" tok = Some E ->
  Date_parse (ToString E) = Some t ->
  JSON_parse ("{" +:+ join "," (json_members false (remove_key "token" fields))
              +:+ "}") = Some d ->
  (now < t ->
     currentUser
       (Auth_constructor c now (_registerToken c (VObject fields) st).2).2 = d)
  /\ (t <= now ->
      currentUser
        (Auth_constructor c now (_registerToken c (VObject fields) st).2).2
      = VNull).
Proof.
  intros Htok HE Hdate Hparse.
  rewrite (_registerToken_state _ _ _ _ Htok), HE.
  cbn [snd from_option id].
  unfold Auth_constructor, getItem, parse_json.
  cbn [bind M_monad set_currentUser with_currentUser localStorage
       add_triggered with_localStorage].
  match goal with
  | |- context [<[store_key c AUTH_DATA_KEY := ?doc]> ?m
                !! store_key c AUTH_TOKEN_EXPIRATION] =>
      replace (<[store_key c AUTH_DATA_KEY := doc]> m
               !! store_key c AUTH_TOKEN_EXPIRATION)
        with (Some (ToString E))
        by (rewrite lookup_insert_ne
              by (apply not_eq_sym, expiration_key_not_data);
            rewrite lookup_insert_eq; reflexivity)
  end.
  rewrite lookup_insert_eq.
  cbn [new_Date truthy ToString]. rewrite Hdate.
  assert (Hne : String.eqb ("{" +:+ join "," (json_members false (remove_key "token" fields)) +:+ "}") "" = false)
    by reflexivity.
  rewrite Hne. cbn [negb andb time_lt].
  split; intros Hnow.
  - apply Z.ltb_lt in Hnow. rewrite Hnow, Hparse. reflexivity.
  - apply Z.ltb_ge in Hnow. rewrite Hnow. reflexivity.
Qed.

(** X15. Persisting the user is last-write-wins: after two calls of
    [setCurrentUser] with truthy documents the store and the current user
    are what the second call alone would have left; only the event log
    remembers the first. *)
Theorem setCurrentUser_last_write_wins c d1 d2 st :
  truthy d1 = true -> truthy d2 = true ->
  localStorage (setCurrentUser c d2 (setCurrentUser c d1 st).2).2
  = localStorage (setCurrentUser c d2 st).2
  /\ currentUser (setCurrentUser c d2 (setCurrentUser c d1 st).2).2 = d2
  /\ triggered (setCurrentUser c d2 (setCurrentUser c d1 st).2).2
     = (triggered st ++ [("login", d1); ("login", d2)])%list.
Proof.
  intros H1 H2. rewrite !setCurrentUser_truthy by assumption.
  cbn [snd localStorage currentUser triggered
       add_triggered with_currentUser with_localStorage].
  split; [apply insert_insert_eq|]. split; [reflexivity|].
  rewrite <- app_assoc. reflexivity.
Qed.

Lemma post_then_registerToken c segments data st p st1 :
  (promise <- post c segments data;;
   ret (then_ promise (fun data => _registerToken c data))) st = (Ok p, st1) ->
  (exists init,
      st1 = add_call (Fetch (endpoint c +:+ segments) init) st
      /\ method init = "POST"
      /\ (data = VUndefined \/ data = VObject [] -> body init = Some VNull))
  /\ (forall body st2, fulfil p body st2 = (_registerToken c body st2).2).
Proof.
  unfold post. cbn [bind M_monad]. rewrite request_eq.
  change (sent_method c "POST") with "POST". cbn [String.eqb Ascii.eqb].
  destruct (getPayload "POST" _) as [payload|e] eqn:Hp; [|discriminate].
  cbn [ret M_monad]. intros Heq. injection Heq as <- <-. split.
  - eexists. split; [reflexivity|]. split; [reflexivity|].
    intros [-> | ->]; cbn [body]; f_equal; cbn in Hp; injection Hp as <-;
      reflexivity.
  - intros body st2. reflexivity.
Qed.

(** X16. [login(data)] and [register(data)], when they return, have sent
    exactly one POST, to the login and to the registration endpoint, with a
    null body when no data is given; the fulfilment of the returned promise
    runs the token-registration step: with a response holding a token [T]
    the user is logged in, [getToken()] is [T] and the current user is the
    response without its token. *)
Theorem login_register_response c data st p st1 segments :
  (segments = "auth/email/login" /\ login c data st = (Ok p, st1))
  \/ (segments = "auth/email" /\ register c data st = (Ok p, st1)) ->
  (exists init,
      st1 = add_call (Fetch (endpoint c +:+ segments) init) st
      /\ method init = "POST"
      /\ (data = VUndefined -> body init = Some VNull))
  /\ (forall body st2, fulfil p body st2 = (_registerToken c body st2).2)
  /\ (forall (fields tok : list (string * value)) T st2,
        assoc "token" fields = Some (VObject tok) ->
        assoc "token" tok = Some (VStr T) ->
        currentUser (fulfil p (VObject fields) st2)
        = VObject (remove_key "token" fields)
        /\ (isLogged (fulfil p (VObject fields) st2)).1 = Ok true
        /\ (getToken c (fulfil p (VObject fields) st2)).1 = Ok (VStr T)).
Proof.
  intros Hcall.
  assert (Hpost : (promise <- post c segments
                               (match data with
                                | VUndefined => VObject []
                                | _ => data
                                end);;
                   ret (then_ promise (fun data => _registerToken c data))) st
                  = (Ok p, st1)).
  { destruct Hcall as [[-> Hl] | [-> Hr]]; assumption. }
  destruct (post_then_registerToken _ _ _ _ _ _ Hpost)
    as [(init & Hst & Hmethod & Hbody) Hfulfil].
  split; [|split; [exact Hfulfil|]].
  - exists init. repeat split; try assumption.
    intros ->. apply Hbody. right. reflexivity.
  - intros fields tok T st2 Htok HT. rewrite Hfulfil.
    unfold getToken, getItem, isLogged. cbn [fst].
    rewrite (_registerToken_token _ _ _ _ _ Htok HT).
    rewrite (_registerToken_state _ _ _ _ Htok).
    repeat split; reflexivity.
Qed.

(** X17. [forgotPassword(data)], when it returns, has sent exactly one
    POST to the forgot-password endpoint and attached nothing to the
    promise: whatever the response, its fulfilment changes no state. *)
Theorem forgotPassword_no_state_change c data st p st1 :
  forgotPassword c data st = (Ok p, st1) ->
  (exists init,
      st1 = add_call (Fetch (endpoint c +:+ "auth/email/forgotPassword") init) st
      /\ method init = "POST")
  /\ (forall body st2, fulfil p body st2 = st2).
Proof.
  unfold forgotPassword, post. rewrite request_eq.
  change (sent_method c "POST") with "POST". cbn [String.eqb Ascii.eqb].
  destruct (getPayload "POST" _) as [payload|e]; [|discriminate].
  intros Heq. injection Heq as <- <-. split.
  - eexists. split; reflexivity.
  - intros body st2. reflexivity.
Qed.

(** X18. The reaction [update] attaches is [setCurrentUser] without a
    guard: when the update resolves with a falsy body ([null], [false],
    [0], the empty string) the user is logged out, a logout event carries
    the user of that moment, and the token and the user document leave the
    store. *)
Theorem update_falsy_response c data st p st1 doc st2 :
  update c data st = (Ok p, st1) ->
  truthy doc = false ->
  currentUser (fulfil p doc st2) = doc
  /\ (getToken c (fulfil p doc st2)).1 = Ok VNull
  /\ localStorage (fulfil p doc st2) !! store_key c AUTH_DATA_KEY = None
  /\ triggered (fulfil p doc st2)
     = (triggered st2 ++ [("logout", currentUser st2)])%list.
Proof.
  intros Hupdate Hdoc.
  assert (Hfulfil : fulfil p doc st2 = (setCurrentUser c doc st2).2).
  { unfold update in Hupdate. cbn [bind M_monad get_currentUser] in Hupdate.
    destruct (negb (truthy (currentUser st))); [discriminate Hupdate|].
    unfold lift in Hupdate.
    destruct (get_prop (currentUser st) "_id") as [id|e]; [|discriminate Hupdate].
    cbn [collection_update ret M_monad] in Hupdate.
    injection Hupdate as <- _. reflexivity. }
  rewrite Hfulfil, (setCurrentUser_falsy _ _ _ Hdoc).
  unfold getToken, getItem.
  cbn [fst snd currentUser localStorage triggered
       with_localStorage with_currentUser add_triggered].
  rewrite lookup_delete_eq.
  rewrite lookup_delete_ne by (apply not_eq_sym, token_key_not_data).
  rewrite lookup_delete_eq. repeat split; reflexivity.
Qed.

(** X19. [setCurrentUser(d)] with a truthy [d] writes the user document
    and nothing else: every other entry of the store, the token and its
    expiration included, is as before, nothing is sent, and one login event
    carries [d]. *)
Theorem setCurrentUser_truthy_frame c d st :
  truthy d = true ->
  (forall k, k <> store_key c AUTH_DATA_KEY ->
             localStorage (setCurrentUser c d st).2 !! k = localStorage st !! k)
  /\ (getToken c (setCurrentUser c d st).2).1 = (getToken c st).1
  /\ calls (setCurrentUser c d st).2 = calls st
  /\ triggered (setCurrentUser c d st).2
     = (triggered st ++ [("login", d)])%list.
Proof.
  intros Hd. rewrite (setCurrentUser_truthy _ _ _ Hd).
  unfold getToken, getItem.
  cbn [fst snd localStorage triggered calls
       with_localStorage with_currentUser add_triggered].
  split.
  - intros k Hk. apply lookup_insert_ne. apply not_eq_sym. exact Hk.
  - rewrite lookup_insert_ne by (apply not_eq_sym, token_key_not_data).
    repeat split; reflexivity.
Qed.

(** X20. The text of an empty object is never a payload: whatever the verb
    and the data, [getPayload] does not return the two characters of an
    empty object literal (it returns [null] in their place, and a GET query
    is escaped). *)
Theorem getPayload_never_empty_object verb data payload :
  getPayload verb data = Ok payload -> payload <> VStr "{}".
Proof.
  unfold getPayload. destruct (truthy data).
  - match goal with
    | |- context [bind ?first _] => destruct first as [p0|e]
    end; [|discriminate].
    cbn [bind Res_monad]. cbv zeta.
    set (chosen := if truthy p0 then p0 else JSON_stringify true data).
    destruct (loose_eq_text chosen "{}") eqn:Hloose.
    + intros Heq. injection Heq as <-. discriminate.
    + destruct (String.eqb verb "GET" && String.eqb (typeof chosen) "string").
      * intros Heq. injection Heq as <-. intros Hempty. injection Hempty as Hempty.
        pose proof (encodeURIComponent_component (ToString chosen)) as Hchars.
        rewrite Hempty in Hchars. discriminate Hchars.
      * intros Heq. injection Heq as <-. intros Hempty.
        rewrite Hempty in Hloose. discriminate Hloose.
  - intros Heq. injection Heq as <-. discriminate.
Qed.

End Further.

(** ** Independence of the host's date functions *)

Lemma SerializeJSONProperty_replacer_host (h1 h2 : Host) :
  forall v : value,
    SerializeJSONProperty (H := h1) true v = SerializeJSONProperty (H := h2) true v.
Proof.
  fix IH 1. intros v.
  destruct v as [| |b|n|s|t|items|fields|files val|durl|b|entries];
    try reflexivity.
  - cbn [SerializeJSONProperty].
    apply (f_equal (fun l => Some ("[" +:+ join "," l +:+ "]"))).
    revert items. fix IHl 1. intros [|x rest]; [reflexivity|].
    cbn [map]. rewrite (IH x). f_equal. apply IHl.
  - cbn [SerializeJSONProperty].
    apply (f_equal (fun l => Some ("{" +:+ join "," l +:+ "}"))).
    revert fields. fix IHl 1. intros [|[k x] rest]; [reflexivity|].
    rewrite (IH x).
    destruct (SerializeJSONProperty (H := h2) true x); [f_equal|]; apply IHl.
Qed.

Lemma resolve_field_host (h1 h2 : Host) v worth :
  @dataURLtoBlob h1 = @dataURLtoBlob h2 ->
  (v <> VUndefined -> v <> VNull ->
   resolve_field (H := h1) v worth = resolve_field (H := h2) v worth).
Proof.
  intros Hconv _ _.
  destruct v as [| |[]|n|s|t|items|fields|files val|durl|b|entries];
    try reflexivity.
  cbn [resolve_field]. rewrite Hconv. reflexivity.
Qed.

Lemma payload_fields_host (h1 h2 : Host) todo :
  @dataURLtoBlob h1 = @dataURLtoBlob h2 ->
  forall formdata worth,
    payload_fields (H := h1) todo formdata worth
    = payload_fields (H := h2) todo formdata worth.
Proof.
  intros Hconv.
  induction todo as [|[field v] rest IH]; intros formdata worth; [reflexivity|].
  rewrite !payload_fields_cons.
  destruct v; try apply IH;
    (rewrite (resolve_field_host h1 h2 _ worth Hconv) by discriminate;
     destruct (resolve_field (H := h2) _ worth) as [[[v' filename] w]|e];
     [apply IH|reflexivity]).
Qed.

(** X21. The payload does not depend on how the host parses or prints
    dates, nor on its [JSON.parse]: two hosts with the same [dataURLtoBlob]
    give the same payload for the same verb and data, with dates at any
    depth of the data. *)
Theorem getPayload_host_independent (h1 h2 : Host) verb data :
  @dataURLtoBlob h1 = @dataURLtoBlob h2 ->
  getPayload (H := h1) verb data = getPayload (H := h2) verb data.
Proof.
  intros Hconv. unfold getPayload.
  destruct (truthy data); [|reflexivity].
  assert (Hjson : JSON_stringify (H := h1) true data
                  = JSON_stringify (H := h2) true data).
  { unfold JSON_stringify.
    rewrite (SerializeJSONProperty_replacer_host h1 h2). reflexivity. }
  assert (Hrest : forall payload : value,
             is_FormData payload = true \/ payload = VNull ->
             (let payload := if truthy payload then payload
                             else JSON_stringify (H := h1) true data in
              if loose_eq_text (H := h1) payload "{}" then Ok VNull
              else if String.eqb verb "GET" && String.eqb (typeof payload) "string"
                   then Ok (VStr (encodeURIComponent (ToString (H := h1) payload)))
                   else Ok payload)
             = (let payload := if truthy payload then payload
                               else JSON_stringify (H := h2) true data in
                if loose_eq_text (H := h2) payload "{}" then Ok VNull
                else if String.eqb verb "GET" && String.eqb (typeof payload) "string"
                     then Ok (VStr (encodeURIComponent (ToString (H := h2) payload)))
                     else Ok payload)).
  { intros payload [Hform | ->].
    - destruct payload; try discriminate Hform. reflexivity.
    - cbn [truthy]. cbv zeta. rewrite Hjson.
      unfold JSON_stringify.
      destruct (SerializeJSONProperty (H := h2) true data); reflexivity. }
  destruct data as [| |b|n|s|t|items|fields|files val|durl|b|entries];
    try (destruct (negb (String.eqb verb "GET"));
         [rewrite (payload_fields_host h1 h2 _ Hconv);
          destruct (payload_fields (H := h2) _ [] false) as [[formdata [|]]|e];
          cbn [bind Res_monad];
          [apply Hrest; left; reflexivity
          |apply Hrest; right; reflexivity
          |reflexivity]
         |cbn [bind Res_monad]; apply Hrest; right; reflexivity]).
  cbn [bind Res_monad]. apply Hrest. left. reflexivity.
Qed.

(** ** The further properties at concrete inputs *)

Lemma Client_constructor_endpoint_witness :
  exists c,
    Client_constructor (H := sample_host)
      (VObject [("url", VStr "http://hook.dev"); ("app_id", VNum 1)]) = Ok c
    /\ endpoint c = "http://hook.dev/"
    /\ ends_with_slash (endpoint c) = true.
Proof.
  eexists. split; [reflexivity|].
  destruct (Client_constructor_endpoint (H := sample_host)
              [("url", VStr "http://hook.dev"); ("app_id", VNum 1)] _
              "http://hook.dev" eq_refl eq_refl) as (Hendpoint & Hslash & _).
  split; [exact Hendpoint|]. apply Hslash. discriminate.
Defined.

Lemma Client_constructor_no_endpoint_witness :
  (exists msg,
      Client_constructor (H := sample_host) VUndefined = Throw (TypeError msg))
  /\ (exists msg,
        Client_constructor (H := sample_host)
          (VObject [("app_id", VNum 1); ("key", VStr "test")])
        = Throw (TypeError msg)).
Proof.
  split.
  - apply (Client_constructor_no_endpoint (H := sample_host)). left. reflexivity.
  - apply (Client_constructor_no_endpoint (H := sample_host)). right.
    eexists. repeat split; reflexivity.
Defined.

Lemma request_credentials_witness :
  exists url init,
    (request (H := sample_host) sample_client "collection/posts" "GET"
       VUndefined stale_state).2
    = add_call (Fetch url init) stale_state
    /\ headers init !! "X-App-Id" = Some "1"
    /\ headers init !! "X-App-Key" = Some "test"
    /\ headers init !! "X-Auth-Token" = Some "abc".
Proof.
  destruct (request_credentials (H := sample_host) sample_client
              "collection/posts" "GET" VUndefined stale_state _ _ eq_refl)
    as (url0 & init & Hst & Hid & Hkey & Htoken).
  exists url0, init. repeat split; assumption.
Defined.

Lemma getPayload_succeeds_iff_witness :
  (exists payload,
      getPayload (H := sample_host) "POST"
        (VObject [("a", VNum 1); ("avatar", VBlob png_blob)]) = Ok payload)
  /\ ~ (exists payload,
          getPayload (H := sample_host) "POST"
            (VObject [("a", VNum 1); ("avatar", VCanvas "data:,")]) = Ok payload).
Proof.
  split.
  - apply (getPayload_succeeds_iff (H := sample_host) "POST"); [discriminate|].
    repeat constructor.
  - intros Hok.
    apply (getPayload_succeeds_iff (H := sample_host) "POST") in Hok;
      [|discriminate].
    inversion Hok as [|kv l _ Hrest]; subst.
    inversion Hrest as [|kv l Hcanvas _]; subst.
    discriminate Hcanvas.
Defined.

Lemma multipart_entry_names_witness :
  exists formdata,
    getPayload (H := sample_host) "POST"
      (VObject [("a", VNum 1); ("tags", VArray [VStr "x"]);
                ("at", VDate (Some 0)); ("avatar", VBlob png_blob)])
    = Ok (VFormData formdata)
    /\ map entry_field formdata = ["a"; "avatar"].
Proof.
  eexists. split; [reflexivity|].
  exact (multipart_entry_names (H := sample_host) "POST"
           [("a", VNum 1); ("tags", VArray [VStr "x"]);
            ("at", VDate (Some 0)); ("avatar", VBlob png_blob)] _
           ltac:(discriminate) eq_refl).
Defined.

Lemma registered_token_is_sent_witness :
  exists url init,
    (request (H := sample_host) sample_client "collection/posts" "PUT"
       (VObject [("title", VStr "t")])
       (_registerToken (H := sample_host) sample_client login_body fresh_state).2).2
    = add_call (Fetch url init)
        (_registerToken (H := sample_host) sample_client login_body fresh_state).2
    /\ headers init !! "X-Auth-Token" = Some "abc".
Proof.
  exact (registered_token_is_sent (H := sample_host) sample_client
           [("_id", VNum 7);
            ("token", VObject [("token", VStr "abc");
                               ("expire_at", VStr "1970-01-01T00:00:01.000Z")])]
           [("token", VStr "abc"); ("expire_at", VStr "1970-01-01T00:00:01.000Z")]
           "abc" fresh_state "collection/posts" "PUT"
           (VObject [("title", VStr "t")]) _ _
           eq_refl eq_refl ltac:(discriminate) eq_refl).
Defined.

Lemma logout_drops_token_header_witness :
  exists url init,
    (request (H := sample_host) sample_client "collection/posts" "GET" VUndefined
       (logout (H := sample_host) sample_client stale_state).2).2
    = add_call (Fetch url init)
        (logout (H := sample_host) sample_client stale_state).2
    /\ headers init !! "X-Auth-Token" = None.
Proof.
  exact (logout_drops_token_header (H := sample_host) sample_client stale_state
           "collection/posts" "GET" VUndefined _ _ eq_refl).
Defined.

Lemma session_survives_restart_witness :
  let body := [("token", VObject [("token", VStr "abc");
                                  ("expire_at", VStr "1970-01-01T00:00:01.000Z")])] in
  currentUser
    (Auth_constructor (H := sample_host) sample_client 999
       (_registerToken (H := sample_host) sample_client (VObject body) fresh_state).2).2
  = VObject []
  /\ currentUser
       (Auth_constructor (H := sample_host) sample_client 1000
          (_registerToken (H := sample_host) sample_client (VObject body) fresh_state).2).2
     = VNull.
Proof.
  intros body. split.
  - apply (proj1 (session_survives_restart (H := sample_host) sample_client body
                    [("token", VStr "abc");
                     ("expire_at", VStr "1970-01-01T00:00:01.000Z")]
                    (VStr "1970-01-01T00:00:01.000Z") 1000 (VObject []) 999
                    fresh_state eq_refl eq_refl eq_refl eq_refl)).
    lia.
  - apply (proj2 (session_survives_restart (H := sample_host) sample_client body
                    [("token", VStr "abc");
                     ("expire_at", VStr "1970-01-01T00:00:01.000Z")]
                    (VStr "1970-01-01T00:00:01.000Z") 1000 (VObject []) 1000
                    fresh_state eq_refl eq_refl eq_refl eq_refl)).
    lia.
Defined.

Lemma setCurrentUser_last_write_wins_witness :
  localStorage
    (setCurrentUser (H := sample_host) sample_client (VObject [("_id", VNum 2)])
       (setCurrentUser (H := sample_host) sample_client (VObject [("_id", VNum 1)])
          fresh_state).2).2
  = localStorage
      (setCurrentUser (H := sample_host) sample_client (VObject [("_id", VNum 2)])
         fresh_state).2.
Proof.
  exact (proj1 (setCurrentUser_last_write_wins (H := sample_host) sample_client
                  (VObject [("_id", VNum 1)]) (VObject [("_id", VNum 2)])
                  fresh_state eq_refl eq_refl)).
Defined.

Lemma login_register_response_witness :
  exists p st1 init,
    login (H := sample_host) sample_client VUndefined fresh_state = (Ok p, st1)
    /\ st1 = add_call (Fetch "http://hook.dev/auth/email/login" init) fresh_state
    /\ method init = "POST"
    /\ body init = Some VNull
    /\ (getToken sample_client (fulfil p login_body st1)).1 = Ok (VStr "abc").
Proof.
  destruct (login_register_response (H := sample_host) sample_client VUndefined
              fresh_state _ _ "auth/email/login"
              ltac:(left; split; reflexivity))
    as ((init & Hst & Hmethod & Hbody) & _ & Hlogged).
  eexists _, _, init. split; [reflexivity|].
  split; [exact Hst|]. split; [exact Hmethod|].
  split; [apply Hbody; reflexivity|].
  exact (proj2 (proj2 (Hlogged
           [("_id", VNum 7);
            ("token", VObject [("token", VStr "abc");
                               ("expire_at", VStr "1970-01-01T00:00:01.000Z")])]
           [("token", VStr "abc"); ("expire_at", VStr "1970-01-01T00:00:01.000Z")]
           "abc" _ eq_refl eq_refl))).
Defined.

Lemma getPayload_host_independent_witness :
  getPayload (H := sample_host) "POST"
    (VObject [("when", VObject [("at", VDate (Some 1500))])])
  = getPayload (H := other_host) "POST"
      (VObject [("when", VObject [("at", VDate (Some 1500))])]).
Proof.
  exact (getPayload_host_independent sample_host other_host "POST" _ eq_refl).
Defined.

Lemma blob_field_filename_witness :
  exists formdata,
    getPayload (H := sample_host) "POST"
      (VObject [("a", VNum 1); ("avatar", VBlob png_blob)])
    = Ok (VFormData formdata)
    /\ In (FieldFile "avatar" png_blob "blob.png") formdata.
Proof.
  eexists. split; [reflexivity|].
  exact (blob_field_filename (H := sample_host) "POST"
           [("a", VNum 1); ("avatar", VBlob png_blob)] _ "avatar"
           png_blob "image" "png" ltac:(discriminate) eq_refl
           ltac:(right; left; reflexivity) eq_refl eq_refl eq_refl).
Defined.

Lemma forgotPassword_no_state_change_witness :
  exists p st1 init,
    forgotPassword (H := sample_host) sample_client VUndefined fresh_state
    = (Ok p, st1)
    /\ st1 = add_call (Fetch "http://hook.dev/auth/email/forgotPassword" init)
               fresh_state
    /\ fulfil p login_body st1 = st1.
Proof.
  destruct (forgotPassword (H := sample_host) sample_client VUndefined fresh_state)
    as [[p|e] st1] eqn:Hcall; [|discriminate Hcall].
  destruct (forgotPassword_no_state_change (H := sample_host) sample_client
              VUndefined fresh_state p st1 Hcall)
    as ((init & Hst & _) & Hfulfil).
  exists p, st1, init. split; [reflexivity|]. split; [exact Hst|apply Hfulfil].
Defined.

Lemma update_falsy_response_witness :
  exists p st1,
    update (H := sample_host) sample_client (VObject [("score", VNum 100)])
      logged_state = (Ok p, st1)
    /\ currentUser (fulfil p VNull st1) = VNull
    /\ triggered (fulfil p VNull st1)
       = [("logout", VObject [("_id", VNum 7)])].
Proof.
  destruct (update (H := sample_host) sample_client
              (VObject [("score", VNum 100)]) logged_state)
    as [[p|e] st1] eqn:Hcall; [|discriminate Hcall].
  destruct (update_falsy_response (H := sample_host) sample_client
              (VObject [("score", VNum 100)]) logged_state p st1 VNull st1
              Hcall eq_refl)
    as (Huser & _ & _ & Hevents).
  exists p, st1. split; [reflexivity|]. split; [exact Huser|].
  rewrite Hevents. injection Hcall as _ <-. reflexivity.
Defined.

Lemma setCurrentUser_truthy_frame_witness :
  (getToken sample_client
     (setCurrentUser (H := sample_host) sample_client (VObject [("_id", VNum 1)])
        stale_state).2).1
  = Ok (VStr "abc").
Proof.
  destruct (setCurrentUser_truthy_frame (H := sample_host) sample_client
              (VObject [("_id", VNum 1)]) stale_state eq_refl)
    as (_ & Htoken & _).
  rewrite Htoken. reflexivity.
Defined.

Lemma getPayload_never_empty_object_witness :
  getPayload (H := sample_host) "POST" (VObject [("a", VUndefined)]) = Ok VNull
  /\ VNull <> VStr "{}".
Proof.
  split; [reflexivity|].
  exact (getPayload_never_empty_object (H := sample_host) "POST"
           (VObject [("a", VUndefined)]) VNull eq_refl).
Defined.
